(** * harness.py: the test harness of the autograder

    A shallow embedding of [src/harness.py] and the properties of its
    isolated runner, timeout supervisor, orchestrator, score aggregator
    and report writer.

    Python objects are an inductive type [value]; dictionaries are
    association lists (insertion order is what [json.dump] writes);
    code is a computation over a state that returns, raises, hangs or
    dies: the code inside the worker process acts on the worker's state
    (result queue, terminal output, elapsed time), the code in the parent
    on a [world] (terminal output, process events, file system). *)

From Stdlib Require Import ZArith NArith List Ascii String Bool Lia.
From Stdlib Require Import Floats.SpecFloat.
Import ListNotations.

Local Open Scope string_scope.
Local Open Scope Z_scope.
Local Open Scope list_scope.

Set Warnings "-register-all".

(** ** Python objects *)

(** The objects the harness handles.  [VFloat] holds a float as sign,
    mantissa and binary exponent ([spec_float] of the Standard Library).
    [VObj] is an instance of any other (picklable) class: the harness only
    ever asks such an object whether it equals [1] and whether it is
    truthy, so the object is represented by its answers ([Fraction(1)],
    [Decimal(1)] and [1+0j] all answer yes to the first).  The result
    channel pickles what it carries, so every object here is picklable. *)
Inductive value : Type :=
| VNone
| VBool (b : bool)
| VInt (z : Z)
| VFloat (f : spec_float)
| VStr (s : string)
| VList (l : list value)
| VDict (d : list (string * value))
| VObj (cls : string) (eq_one : bool) (is_true : bool).

Definition dict : Type := list (string * value).

(** A raised exception: its class, whether the class derives from
    [Exception] ([SystemExit] and [KeyboardInterrupt] do not) and its
    message. *)
Record exn : Type := PyExc {
  exn_class : string;
  exn_is_Exception : bool;
  exn_msg : string
}.

Definition KeyError (key : string) : exn := PyExc "KeyError" true key.
Definition TypeError (msg : string) : exn := PyExc "TypeError" true msg.

(** [bool(v)]. *)
Definition float_is_zero (f : spec_float) : bool :=
  match f with
  | S754_zero _ => true
  | _ => false
  end.

Definition truthy (v : value) : bool :=
  match v with
  | VNone => false
  | VBool b => b
  | VInt z => negb (z =? 0)
  | VFloat f => negb (float_is_zero f)
  | VStr s => negb (String.eqb s EmptyString)
  | VList l => match l with [] => false | _ => true end
  | VDict d => match d with [] => false | _ => true end
  | VObj _ _ t => t
  end.

(** The float [f] is exactly the number 1: positive, finite, and
    mantissa times two to the exponent is one. *)
Definition float_is_one (f : spec_float) : bool :=
  match f with
  | S754_finite false m e =>
      if 0 <=? e then (Z.pos m * 2 ^ e =? 1) else (Z.pos m =? 2 ^ (- e))
  | _ => false
  end.

(** [v == 1], the test a literal pattern [case 1] performs. *)
Definition py_eq_one (v : value) : bool :=
  match v with
  | VBool b => b
  | VInt z => z =? 1
  | VFloat f => float_is_one f
  | VObj _ e _ => e
  | _ => false
  end.

(** [v is None], the test the pattern [case None] performs. *)
Definition is_None (v : value) : bool :=
  match v with
  | VNone => true
  | _ => false
  end.

(** [isinstance(v, (int, float))]; [bool] is a subclass of [int]. *)
Definition is_int_or_float (v : value) : bool :=
  match v with
  | VBool _ | VInt _ | VFloat _ => true
  | _ => false
  end.

(** [d[key]] and [d.get(key, default)] on a dictionary. *)
Fixpoint dict_find (d : dict) (key : string) : option value :=
  match d with
  | [] => None
  | (k, v) :: rest => if String.eqb k key then Some v else dict_find rest key
  end.

Definition dict_get (d : dict) (key : string) (default : value) : value :=
  match dict_find d key with
  | Some v => v
  | None => default
  end.

(** ** Terminal output *)

(** A formatted string keeps the objects it interpolates: the piece
    [FVal v] stands for [str(v)], [FExn e] for [str(e)]. *)
Inductive piece : Type :=
| Lit (s : string)
| FVal (v : value)
| FExn (e : exn).

(** One call of [print]: the text and the [end] argument. *)
Record printed : Type := Printed {
  pr_text : list piece;
  pr_end : string
}.

Definition newline : string := String (Ascii.ascii_of_nat 10) EmptyString.
Definition line (text : list piece) : printed := Printed text newline.

(** ** The scaffold *)

(** How one call of a scaffold method ends.  [Returns a]: it returns [a];
    [Raises e]: it raises [e]; [Hangs]: it never returns; [Dies]: the
    process running it is gone without unwinding ([os._exit], a signal
    from the operating system, a crash of the interpreter). *)
Inductive ending (A : Type) : Type :=
| Returns (a : A)
| Raises (e : exn)
| Hangs
| Dies.

Arguments Returns {A} a.
Arguments Raises {A} e.
Arguments Hangs {A}.
Arguments Dies {A}.

(** What a call of a scaffold method does: what it prints, how long it
    runs (in clock ticks; not meaningful for [Hangs]) and how it ends. *)
Record behaviour (A : Type) : Type := Behaviour {
  b_out : list printed;
  b_time : N;
  b_end : ending A
}.

Arguments Behaviour {A} b_out b_time b_end.
Arguments b_out {A} b.
Arguments b_time {A} b.
Arguments b_end {A} b.

(** [AbstractTestScaffold]: the two abstract methods.  The environment
    [setup] returns is an object like any other.  Each test runs in a
    process of its own, so what a method does is a function of the
    scaffold and the test case. *)
Class AbstractTestScaffold (Sc : Type) : Type := {
  setup : Sc -> dict -> behaviour value;
  run_test_case : Sc -> dict -> value -> behaviour value
}.

(** ** Computations *)

(** A computation over a state [St] ends as a call can and leaves a
    state behind. *)
Definition comp (St A : Type) : Type := St -> ending A * St.

Definition ret {St A} (a : A) : comp St A := fun s => (Returns a, s).

Definition bind {St A B} (m : comp St A) (k : A -> comp St B) : comp St B :=
  fun s =>
    match m s with
    | (Returns a, s') => k a s'
    | (Raises e, s') => (Raises e, s')
    | (Hangs, s') => (Hangs, s')
    | (Dies, s') => (Dies, s')
    end.

Definition raise {St A} (e : exn) : comp St A := fun s => (Raises e, s).

(** [try: body / except Exception as e: handler(e)]: only an exception
    whose class derives from [Exception] is handled. *)
Definition try_except_Exception {St A}
    (body : comp St A) (handler : exn -> comp St A) : comp St A :=
  fun s =>
    match body s with
    | (Raises e, s') =>
        if exn_is_Exception e then handler e s' else (Raises e, s')
    | r => r
    end.

Declare Scope comp_scope.
Delimit Scope comp_scope with comp.
Notation "x <- m ;; k" := (bind m (fun x => k))
  (at level 100, m at next level, right associativity) : comp_scope.
Notation "m ;; k" := (bind m (fun _ => k))
  (at level 100, right associativity) : comp_scope.

(** [[f(x) for x in l]] where [f] has effects: in order, stopping at the
    first call that does not return. *)
Fixpoint for_each {St A B} (f : A -> comp St B) (l : list A) : comp St (list B) :=
  match l with
  | [] => ret []
  | x :: rest =>
      (y <- f x ;;
       ys <- for_each f rest ;;
       ret (y :: ys))%comp
  end.

(** ** The worker process *)

(** The state the code inside the worker acts on: the result queue it
    was handed, what it has printed, and the time it has run. *)
Record wstate : Type := WState {
  w_queue : list value;
  w_out : list printed;
  w_time : N
}.

Definition wstart : wstate := WState [] [] 0.

(** A scaffold call inside the worker: its output is printed, its time
    passes, and it ends as it ends. *)
Definition perform {A} (b : behaviour A) : comp wstate A :=
  fun s =>
    (b_end b, WState (w_queue s) (w_out s ++ b_out b) (w_time s + b_time b)).

(** [print(...)] inside the worker. *)
Definition wprint (text : list piece) : comp wstate unit :=
  fun s => (Returns tt, WState (w_queue s) (w_out s ++ [line text]) (w_time s)).

(** [result_queue.put(v)]. *)
Definition queue_put (v : value) : comp wstate unit :=
  fun s => (Returns tt, WState (w_queue s ++ [v]) (w_out s) (w_time s)).

(** [run_test(scaffold, test_case, result_queue)]; the queue is the one
    in the worker's state. *)
Definition run_test {Sc} `{AbstractTestScaffold Sc}
    (scaffold : Sc) (test_case : dict) : comp wstate unit :=
  (environment <- perform (setup scaffold test_case) ;;
   try_except_Exception
     (result <- perform (run_test_case scaffold test_case environment) ;;
      queue_put result)
     (fun exception =>
        wprint [Lit "Exception during test: "; FExn exception] ;;
        queue_put (VInt 0)))%comp.

(** ** The parent: world, processes, files *)

(** What the parent asks of the operating system about processes. *)
Inductive proc_event : Type :=
| ProcStart (test_case : dict)
| ProcJoin (timeout : option Z)
| ProcTerminate.

(** What a file holds: the JSON text of a document, written whole, or
    text that is no document (nothing yet, or what a failed [json.dump]
    left). *)
Inductive content : Type :=
| JsonText (doc : value)
| Partial.

(** Directories and files, by path.  Failures of the operating system
    (permissions, a full disk) are outside the model. *)
Record filesystem : Type := FileSystem {
  fs_dirs : list string;
  fs_files : list (string * content)
}.

Record world : Type := World {
  stdout : list printed;
  procs : list proc_event;
  fs : filesystem
}.

Definition print_end (text : list piece) (end_ : string) : comp world unit :=
  fun w => (Returns tt, World (stdout w ++ [Printed text end_]) (procs w) (fs w)).

Definition print (text : list piece) : comp world unit := print_end text newline.

Definition log_proc (ev : proc_event) : comp world unit :=
  fun w => (Returns tt, World (stdout w) (procs w ++ [ev]) (fs w)).

(** The capacity of the pipe under a [multiprocessing.Queue], in bytes
    (64 KiB, the default of Linux). *)
Definition pipe_capacity : N := 65536.

(** The size of the pickle of an object, in bytes, as far as it grows
    with the object: the bytes of an integer, the characters of a string,
    the items of a list or dictionary.  An instance of another class is
    represented without state of its own and pickles as a reference to
    its class. *)
Fixpoint pickled_size (v : value) : N :=
  match v with
  | VNone => 1
  | VBool _ => 1
  | VInt z => 2 + N.log2 (Z.abs_N z) / 8
  | VFloat _ => 9
  | VStr s => 5 + N.of_nat (String.length s)
  | VList l => 2 + fold_right (fun x acc => pickled_size x + acc) 0 l
  | VDict d =>
      2 + fold_right
            (fun kv acc =>
               5 + N.of_nat (String.length (fst kv)) + pickled_size (snd kv) + acc)
            0 d
  | VObj _ _ _ => 32
  end%N.

(** The feeder thread of a queue writes what was put into the pipe; the
    process that put it cannot exit before the pipe has taken it all, and
    the pipe takes no more than its capacity while nobody reads. *)
Definition flushed (queue : list value) : bool :=
  (fold_right (fun v acc => pickled_size v + acc) 0 queue <=? pipe_capacity)%N.

(** What the worker has made of SIGTERM by the time the signal arrives:
    left it at its default, which ends the process, or ignored it
    ([signal.signal(SIGTERM, SIG_IGN)], or a handler that carries on). *)
Inductive disposition : Type :=
| SigDefault
| SigIgnored.

(** A [multiprocessing.Process] whose target is [run_test]: how the
    target ends and the state it leaves if nobody stops it, the time the
    process has been given to run so far, whether SIGTERM was sent to it
    while it was running, and what it does on SIGTERM.  [run_test] puts
    on the queue as its last step, so before the target has ended the
    queue is as it was created: empty. *)
Record process : Type := Process {
  p_target : ending unit * wstate;
  p_clock : N;
  p_signalled : bool;
  p_sigterm : disposition
}.

(** Left alone, the process exits at some time: its target does not
    hang, and what it has put fits the pipe (a process that dies leaves
    without flushing). *)
Definition exits (target : ending unit * wstate) : bool :=
  match fst target with
  | Hangs => false
  | Dies => true
  | _ => flushed (w_queue (snd target))
  end.

(** The process has exited by itself once [clock] ticks have passed. *)
Definition ended_by (target : ending unit * wstate) (clock : N) : bool :=
  exits target && (w_time (snd target) <=? clock)%N.

(** SIGTERM has ended the process. *)
Definition killed (p : process) : bool :=
  p_signalled p &&
  match p_sigterm p with
  | SigDefault => true
  | SigIgnored => false
  end.

Definition is_alive (p : process) : bool :=
  negb (killed p) && negb (ended_by (p_target p) (p_clock p)).

(** [p.start()]; [sigterm] is what the worker does on SIGTERM. *)
Definition start (sigterm : disposition) (test_case : dict)
    (target : comp wstate unit) : comp world process :=
  (log_proc (ProcStart test_case) ;;
   ret (Process (target wstart) 0 false sigterm))%comp.

(** [p.join(timeout)]: waits until the process is gone, for at most
    [timeout] ticks (a negative timeout waits no time); with no timeout
    it waits for as long as it takes: until the process exits by itself,
    and for ever when it never does and SIGTERM has not ended it. *)
Definition join (p : process) (timeout : option Z) : comp world process :=
  (log_proc (ProcJoin timeout) ;;
   match timeout with
   | Some t =>
       ret (Process (p_target p) (p_clock p + Z.to_N t) (p_signalled p) (p_sigterm p))
   | None =>
       if killed p then ret p
       else if exits (p_target p)
       then ret (Process (p_target p)
                         (N.max (p_clock p) (w_time (snd (p_target p))))
                         (p_signalled p) (p_sigterm p))
       else (fun w => (Hangs, w))
   end)%comp.

(** [p.terminate()]: sends SIGTERM to the process if it is running. *)
Definition terminate (p : process) : comp world process :=
  (log_proc ProcTerminate ;;
   ret (Process (p_target p) (p_clock p) (is_alive p || p_signalled p) (p_sigterm p)))%comp.

(** The queue as the parent sees it: what the target has put, once the
    process has exited by itself. *)
Definition queue_items (p : process) : list value :=
  if negb (killed p) && ended_by (p_target p) (p_clock p)
  then w_queue (snd (p_target p))
  else [].

(** [result_queue.empty()]. *)
Definition queue_empty (p : process) : bool :=
  match queue_items p with
  | [] => true
  | _ => false
  end.

(** [result_queue.get()]: the first item; blocks on an empty queue. *)
Definition queue_get (p : process) : comp world value :=
  match queue_items p with
  | v :: _ => ret v
  | [] => (fun w => (Hangs, w))
  end.

(** [run_test_in_process(interpreter, test_case, timeout)], run on a
    worker that does [sigterm] on SIGTERM. *)
Definition run_test_in_process_with {Sc} `{AbstractTestScaffold Sc}
    (sigterm : disposition) (interpreter : Sc) (test_case : dict) (timeout : Z)
    : comp world value :=
  (p <- start sigterm test_case (run_test interpreter test_case) ;;
   p <- join p (Some timeout) ;;
   if is_alive p then
     (p <- terminate p ;;
      p <- join p None ;;
      ret VNone)
   else if negb (queue_empty p) then queue_get p
   else ret (VInt 0))%comp.

(** [run_test_in_process] on a worker that leaves SIGTERM at its
    default. *)
Definition run_test_in_process {Sc} `{AbstractTestScaffold Sc}
    (interpreter : Sc) (test_case : dict) (timeout : Z) : comp world value :=
  run_test_in_process_with SigDefault interpreter test_case timeout.

(** [d[key]] in the parent: raises [KeyError] on a missing key. *)
Definition getitem {St} (d : dict) (key : string) : comp St value :=
  match dict_find d key with
  | Some v => ret v
  | None => raise (KeyError key)
  end.

(** [await asyncio.to_thread(f, ...)]: the call runs on another thread
    and the caller waits for its result. *)
Definition to_thread {St A} (call : comp St A) : comp St A := call.

(** [run_test_wrapper(interpreter, test_case, timeout)], run on a worker
    that does [sigterm] on SIGTERM. *)
Definition run_test_wrapper_with {Sc} `{AbstractTestScaffold Sc}
    (sigterm : disposition) (interpreter : Sc) (test_case : dict) (timeout : Z)
    : comp world value :=
  (srcfile <- getitem test_case "srcfile" ;;
   print_end [Lit "Running "; FVal srcfile; Lit "... "] EmptyString ;;
   outcome <- to_thread (run_test_in_process_with sigterm interpreter test_case timeout) ;;
   if is_None outcome then
     (print [Lit "TIMED OUT"] ;; ret (VInt 0))
   else if py_eq_one outcome then
     (print [Lit "PASSED"] ;; ret (VInt 1))
   else
     (print [Lit "FAILED"] ;; ret (VInt 0)))%comp.

(** [run_test_wrapper] on a worker that leaves SIGTERM at its default. *)
Definition run_test_wrapper {Sc} `{AbstractTestScaffold Sc}
    (interpreter : Sc) (test_case : dict) (timeout : Z) : comp world value :=
  run_test_wrapper_with SigDefault interpreter test_case timeout.

(** ** The score aggregator *)

(** [v[key]] for a string [key]: only a dictionary has string keys. *)
Definition subscript {St} (v : value) (key : string) : comp St value :=
  match v with
  | VDict d => getitem d key
  | _ => raise (TypeError "indices must be integers")
  end.

(** [list(filter(f, l))]: the items on which [f] returns a truthy
    object. *)
Fixpoint filter_list {St} (f : value -> comp St value) (l : list value)
    : comp St (list value) :=
  match l with
  | [] => ret []
  | x :: rest =>
      (keep <- f x ;;
       kept <- filter_list f rest ;;
       ret (if truthy keep then x :: kept else kept))%comp
  end.

(** [get_score(results)]. *)
Definition get_score {St} (results : list value) : comp St Z :=
  (kept <- filter_list (fun result => subscript result "score") results ;;
   ret (Z.of_nat (List.length kept)))%comp.

(** ** The orchestrator *)

(** The record the comprehension of [run_all_tests] builds for one test:
    the entries are evaluated in the order they are written. *)
Definition result_record {Sc} `{AbstractTestScaffold Sc}
    (interpreter : Sc) (timeout_per_test : Z) (zero_credit : value)
    (test : dict) : comp world value :=
  (name <- getitem test "name" ;;
   score <- (if negb (truthy zero_credit)
             then run_test_wrapper interpreter test timeout_per_test
             else ret (VInt 0)) ;;
   ret (VDict [("name", name);
               ("score", score);
               ("max_score", VInt 1);
               ("visibility",
                VStr (if truthy (dict_get test "visible" (VBool false))
                      then "visible" else "after_published"))]))%comp.

(** [run_all_tests(interpreter, tests, timeout_per_test, zero_credit)];
    the defaults are [timeout_per_test=5] and [zero_credit=False]. *)
Definition run_all_tests {Sc} `{AbstractTestScaffold Sc}
    (interpreter : Sc) (tests : list dict) (timeout_per_test : Z)
    (zero_credit : value) : comp world (list value) :=
  (print [Lit "Running "; FVal (VInt (Z.of_nat (List.length tests))); Lit " tests..."] ;;
   results <- for_each (result_record interpreter timeout_per_test zero_credit) tests ;;
   passed <- get_score results ;;
   print [FVal (VInt passed); Lit "/"; FVal (VInt (Z.of_nat (List.length tests)));
          Lit " tests passed."] ;;
   ret results)%comp.

(** ** The report writer *)

(** [format_gradescope_output(results)]. *)
Definition format_gradescope_output (results : value) : value :=
  if is_int_or_float results
  then VDict [("score", results)]
  else VDict [("tests", results)].

(** What [json.dump] can write: every object but an instance of a class
    it does not know. *)
Fixpoint json_serializable (v : value) : bool :=
  match v with
  | VObj _ _ _ => false
  | VList l => forallb json_serializable l
  | VDict d => forallb (fun kv => json_serializable (snd kv)) d
  | _ => true
  end.

Definition has_path {A} (path : string) (entries : list (string * A)) : bool :=
  existsb (fun kv => String.eqb (fst kv) path) entries.

(** Something is at [path]: the current directory, a directory or a
    file. *)
Definition fs_exists (files : filesystem) (path : string) : bool :=
  String.eqb path "."
  || existsb (String.eqb path) (fs_dirs files)
  || has_path path (fs_files files).

(** [os.path.exists(path)]. *)
Definition exists_ (path : string) : comp world bool :=
  fun w => (Returns (fs_exists (fs w) path), w).

(** The directories above [path], from the top: for every slash of
    [path] that ends a name, the part of [path] before it.  [seen] is
    what has been read and [named] tells that it ends in a name. *)
Fixpoint ancestors_from (seen rest : string) (named : bool) : list string :=
  match rest with
  | EmptyString => []
  | String c rest' =>
      if Ascii.eqb c "/"%char
      then (if named then [seen] else [])
             ++ ancestors_from (seen ++ String c EmptyString)%string rest' false
      else ancestors_from (seen ++ String c EmptyString)%string rest' true
  end.

Definition ancestors (path : string) : list string :=
  ancestors_from EmptyString path false.

Fixpoint take_while {A} (f : A -> bool) (l : list A) : list A :=
  match l with
  | [] => []
  | x :: rest => if f x then x :: take_while f rest else []
  end.

(** The directories [os.makedirs(path)] creates before [path] itself: it
    goes up from [path] for as long as the parent is missing, and
    creates the missing ones from the top. *)
Definition missing_above (files : filesystem) (path : string) : list string :=
  rev (take_while (fun dir => negb (fs_exists files dir)) (rev (ancestors path))).

Definition FileExistsError (path : string) : exn := PyExc "FileExistsError" true path.

(** [os.makedirs(path)]: creates the missing directories above [path]
    and then [path]; raises when something is at [path] already. *)
Definition makedirs (path : string) : comp world unit :=
  fun w =>
    if fs_exists (fs w) path then (Raises (FileExistsError path), w)
    else (Returns tt,
          World (stdout w) (procs w)
                (FileSystem (fs_dirs (fs w) ++ missing_above (fs w) path ++ [path])
                            (fs_files (fs w)))).

Definition set_file (path : string) (c : content) : comp world unit :=
  fun w =>
    (Returns tt,
     World (stdout w) (procs w)
           (FileSystem (fs_dirs (fs w))
              ((path, c) ::
               filter (fun kv => negb (String.eqb (fst kv) path))
                      (fs_files (fs w))))).

(** [open(path, "w", encoding="utf-8")]: the file is created or
    emptied. *)
Definition open_w (path : string) : comp world string :=
  (set_file path Partial ;; ret path)%comp.

(** [json.dump(data, handle, ensure_ascii=False, indent=4)]. *)
Definition json_dump (data : value) (handle : string) : comp world unit :=
  if json_serializable data
  then set_file handle (JsonText data)
  else raise (TypeError "Object is not JSON serializable").

(** What the file at [path] holds. *)
Fixpoint find_file (files : list (string * content)) (path : string)
    : option content :=
  match files with
  | [] => None
  | (p, c) :: rest => if String.eqb p path then Some c else find_file rest path
  end.

Definition read_file (w : world) (path : string) : option content :=
  find_file (fs_files (fs w)) path.

(** [write_gradescope_output(score, is_prod)]. *)
Definition write_gradescope_output (score : value) (is_prod : value)
    : comp world unit :=
  let path := if truthy is_prod then "/autograder/results" else "." in
  let data := format_gradescope_output score in
  (there <- exists_ path ;;
   (if negb there
    then (print [FVal (VStr path); Lit " does not exist, creating..."] ;;
          makedirs path)
    else ret tt) ;;
   handle <- open_w (path ++ "/results.json")%string ;;
   json_dump data handle)%comp.

(** [write_gradescope_output_failure(msg, is_prod)]. *)
Definition write_gradescope_output_failure (msg : value) (is_prod : value)
    : comp world unit :=
  let results :=
    VList [VDict [("score", VInt 0);
                  ("status", VStr "failed");
                  ("name", VStr "Pre-launch check");
                  ("output", msg)]] in
  write_gradescope_output results is_prod.

(** ** Vocabulary of the properties *)

Section ScaffoldVocabulary.
Context {Sc : Type} `{AbstractTestScaffold Sc}.
Variables (interpreter : Sc) (test_case : dict) (timeout : Z).

(** What the worker does when left alone. *)
Definition target : ending unit * wstate := run_test interpreter test_case wstart.

(** [p.is_alive()] after [p.join(timeout)] on the worker of a test. *)
Definition alive_after : bool :=
  is_alive (Process target (Z.to_N timeout) false SigDefault).

(** The worker never exits, by itself or on SIGTERM. *)
Definition unstoppable (sigterm : disposition) : bool :=
  match sigterm with
  | SigDefault => false
  | SigIgnored => negb (exits target)
  end.

(** The process events of a test that ended in time, and of one that did
    not. *)
Definition events_in_time : list proc_event :=
  [ProcStart test_case; ProcJoin (Some timeout)].

Definition events_timed_out : list proc_event :=
  [ProcStart test_case; ProcJoin (Some timeout); ProcTerminate; ProcJoin None].

(** What [run_test_in_process] hands to the wrapper. *)
Definition supervised_outcome : value :=
  if ended_by target (Z.to_N timeout)
  then match w_queue (snd target) with
       | v :: _ => v
       | [] => VInt 0
       end
  else VNone.

Definition supervised_events : list proc_event :=
  if ended_by target (Z.to_N timeout) then events_in_time else events_timed_out.

(** Both calls return, [run_test_case] returns [v], and together they
    take no longer than the timeout. *)
Definition returns_in_time (v : value) : Prop :=
  exists env,
    b_end (setup interpreter test_case) = Returns env /\
    b_end (run_test_case interpreter test_case env) = Returns v /\
    (b_time (setup interpreter test_case)
     + b_time (run_test_case interpreter test_case env) <= Z.to_N timeout)%N.

(** An exception [e] is raised inside the worker, by [setup] or by
    [run_test_case]. *)
Definition raised_in_worker (e : exn) : Prop :=
  b_end (setup interpreter test_case) = Raises e \/
  exists env,
    b_end (setup interpreter test_case) = Returns env /\
    b_end (run_test_case interpreter test_case env) = Raises e.

(** The exception [e] is caught inside [run_test], logged, and 0 is put
    on the queue. *)
Definition caught_logged_zero (e : exn) : Prop :=
  forall s,
    fst (run_test interpreter test_case s) = Returns tt /\
    w_queue (snd (run_test interpreter test_case s)) = w_queue s ++ [VInt 0] /\
    In (line [Lit "Exception during test: "; FExn e])
       (w_out (snd (run_test interpreter test_case s))).

End ScaffoldVocabulary.

Definition with_events (w : world) (evs : list proc_event) : world :=
  World (stdout w) (procs w ++ evs) (fs w).

(** The three branches of the [match] of [run_test_wrapper]. *)
Inductive verdict : Type := TimedOut | Passed | Failed.

Definition verdict_of (outcome : value) : verdict :=
  if is_None outcome then TimedOut
  else if py_eq_one outcome then Passed
  else Failed.

Definition verdict_text (vd : verdict) : string :=
  match vd with
  | TimedOut => "TIMED OUT"
  | Passed => "PASSED"
  | Failed => "FAILED"
  end.

Definition verdict_score (vd : verdict) : Z :=
  match vd with
  | Passed => 1
  | _ => 0
  end.

Definition has_key (d : dict) (key : string) : bool :=
  match dict_find d key with
  | Some _ => true
  | None => false
  end.

(** "Each test case must have a name and srcfile key." *)
Definition test_case_ok (test : dict) : bool :=
  has_key test "name" && has_key test "srcfile".

Section OrchestratorVocabulary.
Context {Sc : Type} `{AbstractTestScaffold Sc}.
Variables (interpreter : Sc) (timeout_per_test : Z) (zero_credit : value).

(** What [run_all_tests] needs of a test case: a name, and a source file
    when the test is run. *)
Definition runnable (test : dict) : Prop :=
  has_key test "name" = true /\
  (truthy zero_credit = false -> has_key test "srcfile" = true).

Definition visibility_of (test : dict) : value :=
  VStr (if truthy (dict_get test "visible" (VBool false))
        then "visible" else "after_published").

(** The score the comprehension records for a test. *)
Definition recorded_score (test : dict) : Z :=
  if truthy zero_credit then 0
  else verdict_score
         (verdict_of (supervised_outcome interpreter test timeout_per_test)).

Definition record_for (test : dict) : value :=
  VDict [("name", dict_get test "name" VNone);
         ("score", VInt (recorded_score test));
         ("max_score", VInt 1);
         ("visibility", visibility_of test)].

(** What the run of a test prints and asks of the operating system. *)
Definition prints_for (test : dict) : list printed :=
  if truthy zero_credit then []
  else [Printed [Lit "Running "; FVal (dict_get test "srcfile" VNone); Lit "... "] EmptyString;
        line [Lit (verdict_text
                     (verdict_of
                        (supervised_outcome interpreter test timeout_per_test)))]].

Definition events_for (test : dict) : list proc_event :=
  if truthy zero_credit then []
  else supervised_events interpreter test timeout_per_test.

End OrchestratorVocabulary.

(** The score field of a record, when it has one. *)
Definition score_field (r : value) : option value :=
  match r with
  | VDict d => dict_find d "score"
  | _ => None
  end.

Definition max_score_field (r : value) : option value :=
  match r with
  | VDict d => dict_find d "max_score"
  | _ => None
  end.

(** The record has a score, and it is a number. *)
Definition numeric_score (r : value) : bool :=
  match score_field r with
  | Some v => is_int_or_float v
  | None => false
  end.

(** The number is not zero. *)
Definition nonzero (v : value) : bool :=
  match v with
  | VBool b => b
  | VInt z => negb (z =? 0)
  | VFloat (S754_zero _) => false
  | VFloat _ => true
  | _ => false
  end.

Definition nonzero_score (r : value) : bool :=
  match score_field r with
  | Some v => nonzero v
  | None => false
  end.

Definition score_is_one (r : value) : bool :=
  match score_field r with
  | Some v => py_eq_one v
  | None => false
  end.

Definition truthy_score (r : value) : bool :=
  match score_field r with
  | Some v => truthy v
  | None => false
  end.

(** The score is the integer 0 or the integer 1. *)
Definition zero_one_score (r : value) : Prop :=
  score_field r = Some (VInt 0) \/ score_field r = Some (VInt 1).

Definition count (f : value -> bool) (l : list value) : nat :=
  List.length (filter f l).

(** Where the report goes. *)
Definition report_path (is_prod : value) : string :=
  if truthy is_prod then "/autograder/results/results.json" else "./results.json".

(** The record of a submission that could not be launched. *)
Definition failure_record (msg : string) : value :=
  VDict [("score", VInt 0);
         ("status", VStr "failed");
         ("name", VStr "Pre-launch check");
         ("output", VStr msg)].

(** ** Scaffolds and test cases to run the harness on *)

(** A scaffold given by what its two methods do. *)
Record script : Type := Script {
  on_setup : dict -> behaviour value;
  on_run : dict -> value -> behaviour value
}.

#[export] Instance script_scaffold : AbstractTestScaffold script := {
  setup := on_setup;
  run_test_case := on_run
}.

(** A scaffold whose [setup] returns [None] at once and whose
    [run_test_case] does [b]. *)
Definition runs (b : behaviour value) : script :=
  Script (fun _ => Behaviour [] 0 (Returns VNone)) (fun _ _ => b).

(** A scaffold whose [setup] does [b]. *)
Definition sets_up (b : behaviour value) : script :=
  Script (fun _ => b) (fun _ _ => Behaviour [] 0 (Returns (VInt 1))).

Definition ValueError (msg : string) : exn := PyExc "ValueError" true msg.
Definition SystemExit : exn := PyExc "SystemExit" false EmptyString.

(** The float 0.5 and the float 1.0. *)
Definition half : spec_float := S754_finite false 1 (-1).
Definition one_float : spec_float := S754_finite false 4503599627370496 (-52).

Definition setup_fails : script :=
  sets_up (Behaviour [] 1 (Raises (ValueError "no such file"))).
Definition run_raises : script := runs (Behaviour [] 2 (Raises (ValueError "bad"))).
Definition run_exits : script := runs (Behaviour [] 2 (Raises SystemExit)).
Definition returns_one : script := runs (Behaviour [] 2 (Returns (VInt 1))).
Definition returns_two : script := runs (Behaviour [] 2 (Returns (VInt 2))).
Definition returns_true : script := runs (Behaviour [] 2 (Returns (VBool true))).
Definition returns_half : script := runs (Behaviour [] 2 (Returns (VFloat half))).
Definition returns_one_float : script :=
  runs (Behaviour [] 2 (Returns (VFloat one_float))).
Definition returns_None : script := runs (Behaviour [] 2 (Returns VNone)).
Definition hangs : script := runs (Behaviour [] 0 Hangs).
Definition slow : script := runs (Behaviour [] 7 (Returns (VInt 1))).
Definition crashes : script := runs (Behaviour [] 1 Dies).

Definition t1 : dict :=
  [("name", VStr "t1"); ("srcfile", VStr "a.py"); ("visible", VBool true)].
Definition t2 : dict :=
  [("name", VStr "t2"); ("srcfile", VStr "b.py")].

Definition empty_world : world := World [] [] (FileSystem [] []).

Definition three_records : list value :=
  [VDict [("name", VStr "a"); ("score", VInt 1)];
   VDict [("name", VStr "b"); ("score", VInt 0)];
   VDict [("name", VStr "c"); ("score", VInt 1)]].

Definition two_records : value :=
  VList [VDict [("name", VStr "t1"); ("score", VInt 1); ("max_score", VInt 1);
                ("visibility", VStr "visible")];
         VDict [("name", VStr "t2"); ("score", VInt 0); ("max_score", VInt 1);
                ("visibility", VStr "after_published")]].

(** The second claim as it is written: a truthy return value in time
    scores 1. *)
Definition truthy_scores_one : Prop :=
  forall (scaffold : script) (test_case : dict) (timeout : Z) (w : world) (v : value),
    test_case_ok test_case = true ->
    returns_in_time scaffold test_case timeout v ->
    truthy v = true ->
    fst (run_test_wrapper scaffold test_case timeout w) = Returns (VInt 1).

(** The test cases for which a process was started, in order. *)
Fixpoint started (evs : list proc_event) : list dict :=
  match evs with
  | [] => []
  | ProcStart test_case :: rest => test_case :: started rest
  | _ :: rest => started rest
  end.

(** The first line [run_all_tests] prints, and the last. *)
Definition opening_line (tests : list dict) : printed :=
  line [Lit "Running "; FVal (VInt (Z.of_nat (List.length tests))); Lit " tests..."].

Definition summary_line (passed : Z) (tests : list dict) : printed :=
  line [FVal (VInt passed); Lit "/"; FVal (VInt (Z.of_nat (List.length tests)));
        Lit " tests passed."].

(** The notice [write_gradescope_output] prints before it creates the
    production directory. *)
Definition creation_notice : printed :=
  line [FVal (VStr "/autograder/results"); Lit " does not exist, creating..."].

Definition unnamed : dict := [("srcfile", VStr "c.py")].
Definition sourceless : dict := [("name", VStr "t3")].

(** The directory of the report, and [os.path.exists] as a function of
    the world. *)
Definition report_dir (is_prod : value) : string :=
  if truthy is_prod then "/autograder/results" else ".".

Definition path_exists (w : world) (path : string) : bool :=
  match fst (exists_ path w) with
  | Returns there => there
  | _ => false
  end.


(** An object [json.dump] refuses. *)
Definition opaque : value := VObj "Fraction" true true.

(** The world once the directory of the report is there. *)
Definition with_report_dir (is_prod : value) (w : world) : world :=
  if path_exists w (report_dir is_prod) then w
  else World (stdout w
                ++ [line [FVal (VStr (report_dir is_prod));
                          Lit " does not exist, creating..."]])
             (procs w)
             (FileSystem (fs_dirs (fs w)
                            ++ missing_above (fs w) (report_dir is_prod)
                            ++ [report_dir is_prod])
                         (fs_files (fs w))).

(** * Properties *)

(** Unfolds the plumbing of a computation in the parent. *)
Ltac run_parent :=
  unfold bind, ret, print, print_end, log_proc; simpl.

(** ** The harness on the scenarios of the specification *)

Example scenario_pass :
  fst (run_all_tests returns_one [t1] 5 (VBool false) empty_world)
  = Returns [VDict [("name", VStr "t1"); ("score", VInt 1);
                    ("max_score", VInt 1); ("visibility", VStr "visible")]].
Proof. reflexivity. Qed.

Example scenario_raise :
  run_all_tests run_raises [t2] 5 (VBool false) empty_world
  = (Returns [VDict [("name", VStr "t2"); ("score", VInt 0);
                     ("max_score", VInt 1); ("visibility", VStr "after_published")]],
     World [line [Lit "Running "; FVal (VInt 1); Lit " tests..."];
            Printed [Lit "Running "; FVal (VStr "b.py"); Lit "... "] EmptyString;
            line [Lit "FAILED"];
            line [FVal (VInt 0); Lit "/"; FVal (VInt 1); Lit " tests passed."]]
           [ProcStart t2; ProcJoin (Some 5)]
           (FileSystem [] [])).
Proof. reflexivity. Qed.

Example scenario_hang :
  run_all_tests hangs [t2] 1 (VBool false) empty_world
  = (Returns [VDict [("name", VStr "t2"); ("score", VInt 0);
                     ("max_score", VInt 1); ("visibility", VStr "after_published")]],
     World [line [Lit "Running "; FVal (VInt 1); Lit " tests..."];
            Printed [Lit "Running "; FVal (VStr "b.py"); Lit "... "] EmptyString;
            line [Lit "TIMED OUT"];
            line [FVal (VInt 0); Lit "/"; FVal (VInt 1); Lit " tests passed."]]
           [ProcStart t2; ProcJoin (Some 1); ProcTerminate; ProcJoin None]
           (FileSystem [] [])).
Proof. reflexivity. Qed.

Example scenario_float_one :
  fst (run_test_wrapper returns_one_float t1 5 empty_world) = Returns (VInt 1).
Proof. reflexivity. Qed.

Example scenario_returns_None :
  snd (run_test_wrapper returns_None t1 5 empty_world)
  = World [Printed [Lit "Running "; FVal (VStr "a.py"); Lit "... "] EmptyString;
           line [Lit "TIMED OUT"]]
          [ProcStart t1; ProcJoin (Some 5)]
          (FileSystem [] []).
Proof. reflexivity. Qed.

Example scenario_system_exit :
  run_test run_exits t1 wstart = (Raises SystemExit, WState [] [] 2) /\
  fst (run_test_wrapper run_exits t1 5 empty_world) = Returns (VInt 0).
Proof. split; reflexivity. Qed.

Example scenario_missing_name :
  fst (run_all_tests returns_one [[("srcfile", VStr "a.py")]] 5 (VBool false) empty_world)
  = Raises (KeyError "name").
Proof. reflexivity. Qed.

Example scenario_failure_report :
  read_file (snd (write_gradescope_output_failure (VStr "syntax error") (VBool false)
                    empty_world))
            "./results.json"
  = Some (JsonText
            (VDict [("tests",
                     VList [VDict [("score", VInt 0); ("status", VStr "failed");
                                   ("name", VStr "Pre-launch check");
                                   ("output", VStr "syntax error")]])])).
Proof. reflexivity. Qed.

Example prod_report_creates_directory :
  write_gradescope_output (VInt 7) (VBool true) empty_world
  = (Returns tt,
     World [line [FVal (VStr "/autograder/results"); Lit " does not exist, creating..."]]
           []
           (FileSystem ["/autograder"; "/autograder/results"]
              [("/autograder/results/results.json", JsonText (VDict [("score", VInt 7)]))])).
Proof. reflexivity. Qed.

Example setup_fails_run_test :
  run_test setup_fails t1 wstart
  = (Raises (ValueError "no such file"), WState [] [] 1).
Proof. reflexivity. Qed.

Example returns_two_fails :
  run_test_wrapper returns_two t1 5 empty_world
  = (Returns (VInt 0),
     World [Printed [Lit "Running "; FVal (VStr "a.py"); Lit "... "] EmptyString;
            line [Lit "FAILED"]]
           [ProcStart t1; ProcJoin (Some 5)]
           (FileSystem [] [])).
Proof. reflexivity. Qed.

(** ** The isolated runner *)

Section Runner.
Context {Sc : Type} `{AbstractTestScaffold Sc}.
Variables (scaffold : Sc) (test_case : dict).

Lemma run_test_setup_not_returning (s : wstate) :
  (forall env, b_end (setup scaffold test_case) <> Returns env) ->
  w_queue (snd (run_test scaffold test_case s)) = w_queue s /\
  (forall u, fst (run_test scaffold test_case s) <> Returns u).
Proof.
  intros Hno. unfold run_test, bind, perform.
  destruct (b_end (setup scaffold test_case)) as [env | e | | ] eqn:E; simpl.
  - exfalso. apply (Hno env). reflexivity.
  - split; [reflexivity | discriminate].
  - split; [reflexivity | discriminate].
  - split; [reflexivity | discriminate].
Qed.

Lemma run_test_run_returns (s : wstate) (env v : value) :
  b_end (setup scaffold test_case) = Returns env ->
  b_end (run_test_case scaffold test_case env) = Returns v ->
  run_test scaffold test_case s =
  (Returns tt,
   WState (w_queue s ++ [v])
          ((w_out s ++ b_out (setup scaffold test_case))
             ++ b_out (run_test_case scaffold test_case env))
          (w_time s + b_time (setup scaffold test_case)
             + b_time (run_test_case scaffold test_case env))).
Proof.
  intros Hs Hr. unfold run_test, bind, try_except_Exception, perform, queue_put.
  rewrite Hs. simpl. rewrite Hr. simpl. reflexivity.
Qed.

Lemma run_test_run_raises_Exception (s : wstate) (env : value) (e : exn) :
  b_end (setup scaffold test_case) = Returns env ->
  b_end (run_test_case scaffold test_case env) = Raises e ->
  exn_is_Exception e = true ->
  run_test scaffold test_case s =
  (Returns tt,
   WState (w_queue s ++ [VInt 0])
          (((w_out s ++ b_out (setup scaffold test_case))
              ++ b_out (run_test_case scaffold test_case env))
             ++ [line [Lit "Exception during test: "; FExn e]])
          (w_time s + b_time (setup scaffold test_case)
             + b_time (run_test_case scaffold test_case env))).
Proof.
  intros Hs Hr He.
  unfold run_test, bind, try_except_Exception, perform, queue_put, wprint.
  rewrite Hs. simpl. rewrite Hr. simpl. rewrite He. simpl. reflexivity.
Qed.

Lemma run_test_run_not_returning (s : wstate) (env : value) :
  b_end (setup scaffold test_case) = Returns env ->
  (forall v, b_end (run_test_case scaffold test_case env) <> Returns v) ->
  w_queue (snd (run_test scaffold test_case s)) = w_queue s ++ [VInt 0] \/
  w_queue (snd (run_test scaffold test_case s)) = w_queue s.
Proof.
  intros Hs Hno.
  unfold run_test, bind, try_except_Exception, perform, queue_put, wprint.
  rewrite Hs. simpl.
  destruct (b_end (run_test_case scaffold test_case env)) as [v | e | | ] eqn:E; simpl.
  - exfalso. apply (Hno v). reflexivity.
  - destruct (exn_is_Exception e); simpl; [left | right]; reflexivity.
  - right. reflexivity.
  - right. reflexivity.
Qed.

End Runner.

(** ** The timeout supervisor and the wrapper *)

Section Supervisor.
Context {Sc : Type} `{AbstractTestScaffold Sc}.
Variables (interpreter : Sc) (test_case : dict) (timeout : Z).

Lemma ended_by_alive_after :
  ended_by (target interpreter test_case) (Z.to_N timeout)
  = negb (alive_after interpreter test_case timeout).
Proof.
  unfold alive_after, is_alive, killed; simpl. rewrite negb_involutive. reflexivity.
Qed.

(** The supervisor on any worker: in time, timed out, or blocked. *)
Lemma run_test_in_process_with_cases (sigterm : disposition) (w : world) :
  run_test_in_process_with sigterm interpreter test_case timeout w =
  if ended_by (target interpreter test_case) (Z.to_N timeout)
  then (Returns (match w_queue (snd (target interpreter test_case)) with
                 | v :: _ => v
                 | [] => VInt 0
                 end),
        with_events w (events_in_time test_case timeout))
  else if unstoppable interpreter test_case sigterm
  then (Hangs, with_events w (events_timed_out test_case timeout))
  else (Returns VNone, with_events w (events_timed_out test_case timeout)).
Proof.
  unfold run_test_in_process_with, start, join, terminate, unstoppable,
    with_events, events_in_time, events_timed_out.
  fold (target interpreter test_case).
  generalize (target interpreter test_case). intros tg.
  unfold bind at 1, log_proc at 1. unfold ret at 1. unfold bind at 1.
  unfold bind at 1, log_proc at 1. unfold ret at 1. unfold bind at 1.
  unfold ret at 1.
  unfold is_alive, queue_empty, queue_get, queue_items, killed; cbn [p_signalled
    p_sigterm p_target p_clock andb negb stdout procs fs fst snd].
  rewrite N.add_0_l.
  destruct (ended_by tg (Z.to_N timeout)) eqn:E; cbn [negb andb].
  - destruct (w_queue (snd tg)) as [| v q]; cbn [negb];
      unfold ret; rewrite <- app_assoc; reflexivity.
  - unfold bind at 1, log_proc at 1. unfold ret at 1. unfold bind at 1.
    unfold ret at 1. unfold bind at 1.
    unfold bind at 1, log_proc at 1. unfold ret at 1.
    cbn [p_signalled p_sigterm p_target p_clock andb negb orb stdout procs fs fst snd].
    destruct sigterm; [| destruct (exits tg)]; cbn [negb];
      rewrite <- !app_assoc; reflexivity.
Qed.

Lemma run_test_in_process_cases (w : world) :
  run_test_in_process interpreter test_case timeout w =
  (Returns (supervised_outcome interpreter test_case timeout),
   with_events w (supervised_events interpreter test_case timeout)).
Proof.
  unfold run_test_in_process. rewrite run_test_in_process_with_cases.
  unfold supervised_outcome, supervised_events, unstoppable.
  destruct (ended_by (target interpreter test_case) (Z.to_N timeout)); reflexivity.
Qed.

Lemma run_test_wrapper_cases (w : world) (srcfile : value) :
  dict_find test_case "srcfile" = Some srcfile ->
  run_test_wrapper interpreter test_case timeout w =
  (Returns (VInt (verdict_score
                    (verdict_of (supervised_outcome interpreter test_case timeout)))),
   World (stdout w
            ++ [Printed [Lit "Running "; FVal srcfile; Lit "... "] EmptyString;
                line [Lit (verdict_text
                             (verdict_of
                                (supervised_outcome interpreter test_case timeout)))]])
         (procs w ++ supervised_events interpreter test_case timeout)
         (fs w)).
Proof.
  intros Hsrc.
  unfold run_test_wrapper, run_test_wrapper_with, getitem, to_thread, bind at 1.
  rewrite Hsrc. unfold ret at 1, bind at 1, print_end at 1.
  unfold bind at 1.
  change (run_test_in_process_with SigDefault interpreter test_case timeout)
    with (run_test_in_process interpreter test_case timeout).
  rewrite run_test_in_process_cases.
  unfold verdict_of, with_events.
  destruct (is_None (supervised_outcome interpreter test_case timeout));
    [| destruct (py_eq_one (supervised_outcome interpreter test_case timeout))];
    run_parent; rewrite <- app_assoc; reflexivity.
Qed.

Lemma run_test_wrapper_no_srcfile (w : world) :
  dict_find test_case "srcfile" = None ->
  run_test_wrapper interpreter test_case timeout w = (Raises (KeyError "srcfile"), w).
Proof.
  intros Hsrc. unfold run_test_wrapper, run_test_wrapper_with, getitem, bind.
  rewrite Hsrc. reflexivity.
Qed.

Lemma ended_by_returns_in_time (v : value) :
  returns_in_time interpreter test_case timeout v ->
  ended_by (target interpreter test_case) (Z.to_N timeout) = flushed [v] /\
  w_queue (snd (target interpreter test_case)) = [v].
Proof.
  intros (env & Hs & Hr & Ht). unfold target.
  rewrite (run_test_run_returns _ _ wstart env v Hs Hr).
  split; [| reflexivity].
  unfold ended_by, exits. cbn [fst snd w_queue w_time wstart app].
  rewrite N.add_0_l.
  replace (_ <=? Z.to_N timeout)%N with true; [apply andb_true_r |].
  symmetry. apply N.leb_le. exact Ht.
Qed.

(** What [run_test_case] returned in time reaches the parent when its
    pickle fits the pipe; when it does not, the worker cannot exit and
    is found alive at the timeout. *)
Lemma outcome_returns_in_time (v : value) :
  returns_in_time interpreter test_case timeout v ->
  supervised_outcome interpreter test_case timeout = if flushed [v] then v else VNone.
Proof.
  intros Hin. destruct (ended_by_returns_in_time v Hin) as [Hend Hq].
  unfold supervised_outcome. rewrite Hend, Hq. reflexivity.
Qed.

Lemma outcome_zero_or_None_otherwise :
  (forall v, ~ returns_in_time interpreter test_case timeout v) ->
  supervised_outcome interpreter test_case timeout = VInt 0 \/
  supervised_outcome interpreter test_case timeout = VNone.
Proof.
  intros Hno. unfold supervised_outcome.
  destruct (ended_by (target interpreter test_case) (Z.to_N timeout)) eqn:Eend;
    [| right; reflexivity].
  left.
  destruct (b_end (setup interpreter test_case)) as [env | e | | ] eqn:Es.
  2-4: destruct (run_test_setup_not_returning interpreter test_case wstart) as [Hq _];
       [intros env; rewrite Es; discriminate
       | unfold target; rewrite Hq; reflexivity].
  destruct (b_end (run_test_case interpreter test_case env)) as [v | e | | ] eqn:Er.
  1: { exfalso. apply (Hno v). exists env. split; [exact Es |]. split; [exact Er |].
       unfold target in Eend.
       rewrite (run_test_run_returns _ _ wstart env v Es Er) in Eend.
       unfold ended_by in Eend; simpl in Eend.
       apply andb_true_iff in Eend. destruct Eend as [_ Eend].
       apply N.leb_le in Eend. exact Eend. }
  all: destruct (run_test_run_not_returning interpreter test_case wstart env Es)
         as [Hq | Hq];
       [intros v; rewrite Er; discriminate | | ];
       unfold target; rewrite Hq; reflexivity.
Qed.

Lemma raised_not_returned (e : exn) (v : value) :
  raised_in_worker interpreter test_case e ->
  ~ returns_in_time interpreter test_case timeout v.
Proof.
  intros [Hs | (env & Hs & Hr)] (env' & Hs' & Hr' & _).
  - rewrite Hs in Hs'. discriminate.
  - rewrite Hs in Hs'. injection Hs' as ->. rewrite Hr in Hr'. discriminate.
Qed.

End Supervisor.

(** An object that equals 1 is small: its pickle fits the pipe. *)
Lemma py_eq_one_reaches (v : value) :
  py_eq_one (if flushed [v] then v else VNone) = py_eq_one v.
Proof.
  destruct (flushed [v]) eqn:Hfits; [reflexivity |].
  destruct v; try reflexivity; try discriminate Hfits.
  simpl. destruct (z =? 1) eqn:Hz; [| reflexivity].
  apply Z.eqb_eq in Hz. subst z. discriminate Hfits.
Qed.

Lemma verdict_score_zero_or_one (v : value) :
  verdict_score (verdict_of v) = 0 \/ verdict_score (verdict_of v) = 1.
Proof.
  unfold verdict_of.
  destruct (is_None v); [left; reflexivity |].
  destruct (py_eq_one v); [right | left]; reflexivity.
Qed.

Lemma verdict_score_eq_one (v : value) :
  verdict_score (verdict_of v) = if py_eq_one v then 1 else 0.
Proof.
  unfold verdict_of. destruct v; simpl; try reflexivity.
  - destruct b; reflexivity.
  - destruct (z =? 1); reflexivity.
  - destruct (float_is_one f); reflexivity.
  - destruct eq_one; reflexivity.
Qed.

(** ** The score aggregator *)

Section Aggregator.
Context {St : Type}.

Lemma subscript_score (r : value) (s : St) (v : value) :
  score_field r = Some v -> subscript r "score" s = (Returns v, s).
Proof.
  destruct r; simpl; try discriminate.
  intros Hf. unfold getitem. rewrite Hf. reflexivity.
Qed.

Lemma filter_list_scores (results : list value) (s : St) :
  Forall (fun r => score_field r <> None) results ->
  filter_list (fun result => subscript result "score") results s =
  (Returns (filter truthy_score results), s).
Proof.
  induction 1 as [| r rest Hr _ IH]; simpl.
  - reflexivity.
  - destruct (score_field r) as [v |] eqn:Ev; [| contradiction Hr; reflexivity].
    unfold bind at 1. rewrite (subscript_score r s v Ev).
    unfold bind at 1. rewrite IH. unfold ret, truthy_score. rewrite Ev.
    reflexivity.
Qed.

Lemma get_score_truthy (results : list value) (s : St) :
  Forall (fun r => score_field r <> None) results ->
  get_score results s = (Returns (Z.of_nat (count truthy_score results)), s).
Proof.
  intros Hall. unfold get_score, bind. rewrite (filter_list_scores results s Hall).
  reflexivity.
Qed.

End Aggregator.

Lemma truthy_nonzero (v : value) :
  is_int_or_float v = true -> truthy v = nonzero v.
Proof.
  destruct v; simpl; try discriminate; try reflexivity.
  destruct f; reflexivity.
Qed.

Lemma filter_agree {A} (f g : A -> bool) (l : list A) :
  Forall (fun x => f x = g x) l -> filter f l = filter g l.
Proof.
  induction 1 as [| x rest Hx _ IH]; simpl; [reflexivity |].
  rewrite Hx, IH. reflexivity.
Qed.

Lemma numeric_has_score (results : list value) :
  Forall (fun r => numeric_score r = true) results ->
  Forall (fun r => score_field r <> None) results.
Proof.
  apply Forall_impl. intros r. unfold numeric_score.
  destruct (score_field r); discriminate.
Qed.

(** ** The orchestrator *)

Lemma has_key_find (d : dict) (key : string) :
  has_key d key = true -> dict_find d key = Some (dict_get d key VNone).
Proof.
  unfold has_key, dict_get. destruct (dict_find d key); [reflexivity | discriminate].
Qed.

Section Orchestrator.
Context {Sc : Type} `{AbstractTestScaffold Sc}.
Variables (interpreter : Sc) (timeout_per_test : Z) (zero_credit : value).

Lemma result_record_runnable (test : dict) (w : world) :
  runnable zero_credit test ->
  result_record interpreter timeout_per_test zero_credit test w =
  (Returns (record_for interpreter timeout_per_test zero_credit test),
   World (stdout w ++ prints_for interpreter timeout_per_test zero_credit test)
         (procs w ++ events_for interpreter timeout_per_test zero_credit test)
         (fs w)).
Proof.
  intros [Hname Hsrc].
  unfold result_record, getitem, bind at 1.
  rewrite (has_key_find test "name" Hname). unfold ret at 1.
  unfold record_for, recorded_score, prints_for, events_for, visibility_of.
  destruct (truthy zero_credit); simpl.
  - unfold bind, ret. rewrite !app_nil_r. destruct w; reflexivity.
  - unfold bind at 1.
    rewrite (run_test_wrapper_cases interpreter test timeout_per_test w
               (dict_get test "srcfile" VNone)
               (has_key_find test "srcfile" (Hsrc eq_refl))).
    reflexivity.
Qed.

Lemma for_each_result_record (tests : list dict) (w : world) :
  Forall (runnable zero_credit) tests ->
  for_each (result_record interpreter timeout_per_test zero_credit) tests w =
  (Returns (map (record_for interpreter timeout_per_test zero_credit) tests),
   World (stdout w
            ++ flat_map (prints_for interpreter timeout_per_test zero_credit) tests)
         (procs w
            ++ flat_map (events_for interpreter timeout_per_test zero_credit) tests)
         (fs w)).
Proof.
  intros Hall. revert w.
  induction Hall as [| test rest Htest _ IH]; intros w; simpl.
  - unfold ret. rewrite !app_nil_r. destruct w; reflexivity.
  - unfold bind at 1. rewrite (result_record_runnable test w Htest).
    unfold bind at 1. rewrite IH. unfold ret; simpl.
    rewrite !app_assoc. reflexivity.
Qed.

Lemma record_for_score (test : dict) :
  score_field (record_for interpreter timeout_per_test zero_credit test)
  = Some (VInt (recorded_score interpreter timeout_per_test zero_credit test)).
Proof. reflexivity. Qed.

Lemma recorded_score_zero_or_one (test : dict) :
  recorded_score interpreter timeout_per_test zero_credit test = 0 \/
  recorded_score interpreter timeout_per_test zero_credit test = 1.
Proof.
  unfold recorded_score. destruct (truthy zero_credit); [left; reflexivity |].
  apply verdict_score_zero_or_one.
Qed.

Lemma records_have_scores (tests : list dict) :
  Forall (fun r => score_field r <> None)
         (map (record_for interpreter timeout_per_test zero_credit) tests).
Proof.
  apply Forall_forall. intros r Hin. apply in_map_iff in Hin.
  destruct Hin as (test & <- & _). rewrite record_for_score. discriminate.
Qed.

(** The whole of [run_all_tests] on runnable test cases. *)
Lemma run_all_tests_runnable (tests : list dict) (w : world) :
  Forall (runnable zero_credit) tests ->
  run_all_tests interpreter tests timeout_per_test zero_credit w =
  (Returns (map (record_for interpreter timeout_per_test zero_credit) tests),
   World (((stdout w
              ++ [line [Lit "Running "; FVal (VInt (Z.of_nat (List.length tests)));
                        Lit " tests..."]])
             ++ flat_map (prints_for interpreter timeout_per_test zero_credit) tests)
            ++ [line [FVal (VInt (Z.of_nat
                                   (count truthy_score
                                      (map (record_for interpreter timeout_per_test
                                              zero_credit) tests))));
                      Lit "/"; FVal (VInt (Z.of_nat (List.length tests)));
                      Lit " tests passed."]])
         (procs w ++ flat_map (events_for interpreter timeout_per_test zero_credit) tests)
         (fs w)).
Proof.
  intros Hall. unfold run_all_tests, bind at 1, print at 1, print_end at 1.
  unfold bind at 1. rewrite (for_each_result_record tests _ Hall). simpl.
  unfold bind at 1.
  rewrite (get_score_truthy _ _ (records_have_scores tests)).
  run_parent. reflexivity.
Qed.

Lemma zero_credit_count (tests : list dict) :
  truthy zero_credit = true ->
  count truthy_score (map (record_for interpreter timeout_per_test zero_credit) tests)
  = 0%nat /\
  flat_map (prints_for interpreter timeout_per_test zero_credit) tests = [] /\
  flat_map (events_for interpreter timeout_per_test zero_credit) tests = [].
Proof.
  intros Hz. unfold count.
  induction tests as [| test rest (IHc & IHp & IHe)]; simpl.
  - repeat split.
  - unfold truthy_score at 1, prints_for at 1, events_for at 1.
    rewrite record_for_score. unfold recorded_score. rewrite Hz. simpl.
    repeat split; assumption.
Qed.

Lemma runnable_of_ok (tests : list dict) :
  Forall (fun test => test_case_ok test = true) tests ->
  Forall (runnable zero_credit) tests.
Proof.
  apply Forall_impl. intros test Hok. unfold test_case_ok in Hok.
  apply andb_true_iff in Hok. destruct Hok as [Hname Hsrc].
  split; [exact Hname | intros _; exact Hsrc].
Qed.

End Orchestrator.

(** ** The report writer *)

Lemma format_serializable (results : value) :
  json_serializable results = true ->
  json_serializable (format_gradescope_output results) = true.
Proof.
  intros Hs. unfold format_gradescope_output.
  destruct (is_int_or_float results); simpl; rewrite Hs; reflexivity.
Qed.

Lemma read_after_set_file (path : string) (c : content) (w : world) :
  read_file (snd (set_file path c w)) path = Some c.
Proof.
  unfold read_file, set_file; simpl. rewrite String.eqb_refl. reflexivity.
Qed.

Lemma write_gradescope_output_writes (score is_prod : value) (w : world) :
  json_serializable score = true ->
  exists w',
    write_gradescope_output score is_prod w = (Returns tt, w') /\
    read_file w' (report_path is_prod)
    = Some (JsonText (format_gradescope_output score)).
Proof.
  intros Hs. unfold write_gradescope_output, report_path, json_dump.
  rewrite (format_serializable score Hs).
  destruct (truthy is_prod); unfold bind at 1, exists_ at 1.
  - destruct (fs_exists (fs w) "/autograder/results") eqn:Hthere; simpl.
    + unfold open_w, set_file. run_parent. eexists. split; reflexivity.
    + unfold open_w, set_file, makedirs. run_parent. rewrite Hthere.
      eexists. split; reflexivity.
  - simpl. unfold open_w, set_file. run_parent. eexists. split; reflexivity.
Qed.

(** * The claims *)

(** C1, as stated, is false: an exception raised by [setup] leaves
    [run_test] uncaught, with nothing logged and nothing put on the
    queue. *)
Lemma setup_exception_escapes_run_test :
  raised_in_worker setup_fails t1 (ValueError "no such file") /\
  ~ caught_logged_zero setup_fails t1 (ValueError "no such file").
Proof.
  split.
  - left. reflexivity.
  - intros Hc. destruct (Hc wstart) as [Hret _]. discriminate Hret.
Qed.

(** C1 (amended): an exception raised inside the worker, by [setup] or by
    [run_test_case], never reaches the parent, whose score for the test
    is 0; when it is an [Exception] raised by [run_test_case], it is
    caught inside [run_test], logged, and 0 is put on the queue. *)
Theorem worker_exception_scores_zero {Sc} `{AbstractTestScaffold Sc}
    (scaffold : Sc) (test_case : dict) (e : exn) :
  raised_in_worker scaffold test_case e ->
  (forall timeout w srcfile,
      dict_find test_case "srcfile" = Some srcfile ->
      exists w', run_test_wrapper scaffold test_case timeout w = (Returns (VInt 0), w')) /\
  (forall env,
      b_end (setup scaffold test_case) = Returns env ->
      b_end (run_test_case scaffold test_case env) = Raises e ->
      exn_is_Exception e = true ->
      caught_logged_zero scaffold test_case e).
Proof.
  intros Hraised. split.
  - intros timeout w srcfile Hsrc.
    rewrite (run_test_wrapper_cases scaffold test_case timeout w srcfile Hsrc).
    destruct (outcome_zero_or_None_otherwise scaffold test_case timeout) as [Ho | Ho].
    + intros v. exact (raised_not_returned scaffold test_case timeout e v Hraised).
    + rewrite Ho. eexists. reflexivity.
    + rewrite Ho. eexists. reflexivity.
  - intros env Hs Hr He s.
    rewrite (run_test_run_raises_Exception scaffold test_case s env e Hs Hr He).
    simpl. split; [reflexivity |]. split; [reflexivity |].
    apply in_or_app. right. left. reflexivity.
Qed.

Lemma worker_exception_scores_zero_witness :
  (exists w', run_test_wrapper run_raises t2 5 empty_world = (Returns (VInt 0), w')) /\
  caught_logged_zero run_raises t2 (ValueError "bad").
Proof.
  assert (Hraised : raised_in_worker run_raises t2 (ValueError "bad")).
  { right. exists VNone. split; reflexivity. }
  destruct (worker_exception_scores_zero run_raises t2 (ValueError "bad") Hraised)
    as [Hscore Hcaught].
  split.
  - apply (Hscore 5 empty_world (VStr "b.py")). reflexivity.
  - apply (Hcaught VNone); reflexivity.
Defined.

(** C2, as stated, is false: a scaffold that returns the truthy value 2
    within the timeout is scored 0. *)
Lemma truthy_two_scores_zero : ~ truthy_scores_one.
Proof.
  intros Hclaim.
  assert (Hin : returns_in_time returns_two t1 5 (VInt 2)).
  { exists VNone. split; [reflexivity |]. split; [reflexivity |]. simpl. lia. }
  specialize (Hclaim returns_two t1 5 empty_world (VInt 2) eq_refl Hin eq_refl).
  discriminate Hclaim.
Qed.

(** C2 (amended): when [run_test_case] returns [v] within the timeout, the
    score is 1 if [v == 1] and 0 if not; every other outcome (exception,
    timeout, crash) scores 0. *)
Theorem score_is_one_iff_equal_to_one {Sc} `{AbstractTestScaffold Sc}
    (interpreter : Sc) (test_case : dict) (timeout : Z) (w : world) :
  has_key test_case "srcfile" = true ->
  (forall v,
      returns_in_time interpreter test_case timeout v ->
      fst (run_test_wrapper interpreter test_case timeout w)
      = Returns (VInt (if py_eq_one v then 1 else 0))) /\
  ((forall v, ~ returns_in_time interpreter test_case timeout v) ->
   fst (run_test_wrapper interpreter test_case timeout w) = Returns (VInt 0)).
Proof.
  intros Hsrc.
  rewrite (run_test_wrapper_cases interpreter test_case timeout w
             (dict_get test_case "srcfile" VNone)
             (has_key_find test_case "srcfile" Hsrc)).
  simpl. split.
  - intros v Hin. rewrite (outcome_returns_in_time interpreter test_case timeout v Hin).
    rewrite verdict_score_eq_one, py_eq_one_reaches. reflexivity.
  - intros Hno.
    destruct (outcome_zero_or_None_otherwise interpreter test_case timeout Hno) as [Ho | Ho];
      rewrite Ho; reflexivity.
Qed.

Lemma score_is_one_iff_equal_to_one_witness :
  fst (run_test_wrapper returns_true t1 5 empty_world) = Returns (VInt 1) /\
  fst (run_test_wrapper returns_two t1 5 empty_world) = Returns (VInt 0) /\
  fst (run_test_wrapper hangs t1 5 empty_world) = Returns (VInt 0).
Proof.
  split; [| split].
  - apply (proj1 (score_is_one_iff_equal_to_one returns_true t1 5 empty_world eq_refl)
             (VBool true)).
    exists VNone. split; [reflexivity |]. split; [reflexivity |]. simpl. lia.
  - apply (proj1 (score_is_one_iff_equal_to_one returns_two t1 5 empty_world eq_refl)
             (VInt 2)).
    exists VNone. split; [reflexivity |]. split; [reflexivity |]. simpl. lia.
  - apply (proj2 (score_is_one_iff_equal_to_one hangs t1 5 empty_world eq_refl)).
    intros v (env & _ & Hr & _). discriminate Hr.
Defined.

(** C3 (the code at the failing input): on a worker that never ends and
    ignores SIGTERM, still alive after a timeout of 1, the supervisor
    starts the process, joins it for the timeout, terminates it and joins
    it again, and that last join never returns: no timed-out outcome is
    returned, and the wrapper, which has announced the test, prints no
    verdict and returns no score. *)
Theorem deaf_worker_blocks_the_supervisor :
  alive_after hangs t1 1 = true /\
  run_test_in_process_with SigIgnored hangs t1 1 empty_world
  = (Hangs,
     World [] [ProcStart t1; ProcJoin (Some 1); ProcTerminate; ProcJoin None]
           (FileSystem [] [])) /\
  run_test_wrapper_with SigIgnored hangs t1 1 empty_world
  = (Hangs,
     World [Printed [Lit "Running "; FVal (VStr "a.py"); Lit "... "] EmptyString]
           [ProcStart t1; ProcJoin (Some 1); ProcTerminate; ProcJoin None]
           (FileSystem [] [])).
Proof. repeat split. Qed.

(** C4: on test cases that have a name and a source file, [run_all_tests]
    returns one record per test case, in the order of the input: the
    result list is as long as the input list and its [i]-th record is the
    record built from the [i]-th test case. *)
Theorem run_all_tests_record_per_test {Sc} `{AbstractTestScaffold Sc}
    (interpreter : Sc) (tests : list dict) (timeout_per_test : Z)
    (zero_credit : value) (w : world) :
  Forall (fun test => test_case_ok test = true) tests ->
  exists results,
    fst (run_all_tests interpreter tests timeout_per_test zero_credit w)
    = Returns results /\
    List.length results = List.length tests /\
    forall i test,
      nth_error tests i = Some test ->
      exists name,
        dict_find test "name" = Some name /\
        nth_error results i
        = Some (VDict [("name", name);
                       ("score",
                        VInt (recorded_score interpreter timeout_per_test zero_credit test));
                       ("max_score", VInt 1);
                       ("visibility",
                        VStr (if truthy (dict_get test "visible" (VBool false))
                              then "visible" else "after_published"))]).
Proof.
  intros Hok.
  exists (map (record_for interpreter timeout_per_test zero_credit) tests).
  rewrite (run_all_tests_runnable interpreter timeout_per_test zero_credit tests w
             (runnable_of_ok zero_credit tests Hok)).
  split; [reflexivity |]. split; [apply length_map |].
  intros i test Hnth. exists (dict_get test "name" VNone). split.
  - apply has_key_find.
    apply nth_error_In in Hnth.
    rewrite Forall_forall in Hok. specialize (Hok test Hnth).
    unfold test_case_ok in Hok. apply andb_true_iff in Hok. exact (proj1 Hok).
  - rewrite nth_error_map, Hnth. reflexivity.
Qed.

Lemma run_all_tests_record_per_test_witness :
  exists results,
    fst (run_all_tests returns_true [t1; t2] 5 (VBool false) empty_world)
    = Returns results /\
    List.length results = 2%nat /\
    forall i test,
      nth_error [t1; t2] i = Some test ->
      exists name,
        dict_find test "name" = Some name /\
        nth_error results i
        = Some (VDict [("name", name);
                       ("score", VInt (recorded_score returns_true 5 (VBool false) test));
                       ("max_score", VInt 1);
                       ("visibility",
                        VStr (if truthy (dict_get test "visible" (VBool false))
                              then "visible" else "after_published"))]).
Proof.
  apply (run_all_tests_record_per_test returns_true [t1; t2] 5 (VBool false) empty_world).
  repeat constructor.
Defined.

(** C5: when the worker has exited within the timeout and the queue is
    empty, the supervisor returns 0 (it raises nothing), and the wrapper
    prints FAILED and scores 0. *)
Theorem empty_queue_scores_zero {Sc} `{AbstractTestScaffold Sc}
    (interpreter : Sc) (test_case : dict) (timeout : Z) (w : world) (srcfile : value) :
  dict_find test_case "srcfile" = Some srcfile ->
  alive_after interpreter test_case timeout = false ->
  w_queue (snd (target interpreter test_case)) = [] ->
  run_test_in_process interpreter test_case timeout w
  = (Returns (VInt 0),
     World (stdout w)
           (procs w ++ [ProcStart test_case; ProcJoin (Some timeout)])
           (fs w)) /\
  run_test_wrapper interpreter test_case timeout w
  = (Returns (VInt 0),
     World (stdout w ++ [Printed [Lit "Running "; FVal srcfile; Lit "... "] EmptyString;
                         line [Lit "FAILED"]])
           (procs w ++ [ProcStart test_case; ProcJoin (Some timeout)])
           (fs w)).
Proof.
  intros Hsrc Hdead Hempty.
  assert (Hend : ended_by (target interpreter test_case) (Z.to_N timeout) = true).
  { rewrite ended_by_alive_after, Hdead. reflexivity. }
  split.
  - rewrite run_test_in_process_cases.
    unfold supervised_outcome, supervised_events. rewrite Hend, Hempty. reflexivity.
  - rewrite (run_test_wrapper_cases interpreter test_case timeout w srcfile Hsrc).
    unfold supervised_outcome, supervised_events. rewrite Hend, Hempty. reflexivity.
Qed.

Lemma empty_queue_scores_zero_witness :
  run_test_in_process crashes t2 5 empty_world
  = (Returns (VInt 0),
     World [] [ProcStart t2; ProcJoin (Some 5)] (FileSystem [] [])) /\
  run_test_wrapper crashes t2 5 empty_world
  = (Returns (VInt 0),
     World [Printed [Lit "Running "; FVal (VStr "b.py"); Lit "... "] EmptyString;
            line [Lit "FAILED"]]
           [ProcStart t2; ProcJoin (Some 5)]
           (FileSystem [] [])).
Proof.
  apply (empty_queue_scores_zero crashes t2 5 empty_world (VStr "b.py"));
    reflexivity.
Defined.

(** C6: with [zero_credit] true, on test cases that have a name,
    [run_all_tests] records the score 0 for every test case, starts no
    process and prints no per-test line: the only output is the two
    lines that frame the run. *)
Theorem zero_credit_runs_nothing {Sc} `{AbstractTestScaffold Sc}
    (interpreter : Sc) (tests : list dict) (timeout_per_test : Z)
    (zero_credit : value) (w : world) :
  truthy zero_credit = true ->
  Forall (fun test => has_key test "name" = true) tests ->
  exists results w',
    run_all_tests interpreter tests timeout_per_test zero_credit w
    = (Returns results, w') /\
    List.length results = List.length tests /\
    Forall (fun r => score_field r = Some (VInt 0)) results /\
    procs w' = procs w /\
    stdout w'
    = stdout w
        ++ [line [Lit "Running "; FVal (VInt (Z.of_nat (List.length tests)));
                  Lit " tests..."];
            line [FVal (VInt 0); Lit "/"; FVal (VInt (Z.of_nat (List.length tests)));
                  Lit " tests passed."]].
Proof.
  intros Hz Hnames.
  assert (Hrun : Forall (runnable zero_credit) tests).
  { revert Hnames. apply Forall_impl. intros test Hname.
    split; [exact Hname |]. rewrite Hz. discriminate. }
  rewrite (run_all_tests_runnable interpreter timeout_per_test zero_credit tests w Hrun).
  destruct (zero_credit_count interpreter timeout_per_test zero_credit tests Hz)
    as (Hc & Hp & He).
  rewrite Hc, Hp, He. do 2 eexists. split; [reflexivity |]. simpl.
  split; [apply length_map |]. split.
  - apply Forall_forall. intros r Hin. apply in_map_iff in Hin.
    destruct Hin as (test & <- & _). rewrite record_for_score.
    unfold recorded_score. rewrite Hz. reflexivity.
  - split; [apply app_nil_r |].
    rewrite app_nil_r, <- app_assoc. reflexivity.
Qed.

Lemma zero_credit_runs_nothing_witness :
  exists results w',
    run_all_tests returns_true [t1; t2] 5 (VBool true) empty_world
    = (Returns results, w') /\
    List.length results = 2%nat /\
    Forall (fun r => score_field r = Some (VInt 0)) results /\
    procs w' = [] /\
    stdout w'
    = [line [Lit "Running "; FVal (VInt 2); Lit " tests..."];
       line [FVal (VInt 0); Lit "/"; FVal (VInt 2); Lit " tests passed."]].
Proof.
  apply (zero_credit_runs_nothing returns_true [t1; t2] 5 (VBool true) empty_world).
  - reflexivity.
  - repeat constructor.
Defined.

(** C7: on records whose score is a number, [get_score] returns the
    number of records whose score is not zero, which for scores 0 and 1
    is the number of records whose score equals 1; on the empty list it
    returns 0; it leaves the state it runs in untouched and its result
    does not depend on that state. *)
Theorem get_score_counts_nonzero {St : Type} (results : list value) (s : St) :
  Forall (fun r => numeric_score r = true) results ->
  get_score results s = (Returns (Z.of_nat (count nonzero_score results)), s) /\
  (Forall zero_one_score results ->
   get_score results s = (Returns (Z.of_nat (count score_is_one results)), s)) /\
  get_score [] s = (Returns 0, s).
Proof.
  intros Hnum.
  assert (Hcount : get_score results s
                   = (Returns (Z.of_nat (count nonzero_score results)), s)).
  { rewrite (get_score_truthy results s (numeric_has_score results Hnum)).
    unfold count. rewrite (filter_agree truthy_score nonzero_score results);
      [reflexivity |].
    revert Hnum. apply Forall_impl. intros r.
    unfold numeric_score, truthy_score, nonzero_score.
    destruct (score_field r) as [v |]; [apply truthy_nonzero | reflexivity]. }
  split; [exact Hcount |]. split; [| reflexivity].
  intros H01. rewrite Hcount. unfold count.
  rewrite (filter_agree nonzero_score score_is_one results); [reflexivity |].
  revert H01. apply Forall_impl. intros r [Hr | Hr];
    unfold nonzero_score, score_is_one; rewrite Hr; reflexivity.
Qed.

Lemma get_score_counts_nonzero_witness :
  get_score three_records empty_world = (Returns 2, empty_world) /\
  get_score three_records tt = (Returns 2, tt).
Proof.
  split.
  - apply (proj1 (get_score_counts_nonzero three_records empty_world
                    ltac:(repeat constructor))).
  - apply (proj1 (proj2 (get_score_counts_nonzero three_records tt
                           ltac:(repeat constructor)))).
    unfold three_records, zero_one_score.
    apply Forall_cons; [right; reflexivity |].
    apply Forall_cons; [left; reflexivity |].
    apply Forall_cons; [right; reflexivity |].
    apply Forall_nil.
Defined.

(** C8: [format_gradescope_output] turns a number [v] into
    [{"score": v}] and a list of records into [{"tests": records}];
    [write_gradescope_output] writes that document to
    [/autograder/results/results.json] when [is_prod] is true and to
    [./results.json] when it is not. *)
Theorem report_shape_and_place (score is_prod : value) (w : world) :
  json_serializable score = true ->
  (is_int_or_float score = true ->
   format_gradescope_output score = VDict [("score", score)]) /\
  (forall records,
      score = VList records ->
      format_gradescope_output score = VDict [("tests", VList records)]) /\
  exists w',
    write_gradescope_output score is_prod w = (Returns tt, w') /\
    read_file w' (if truthy is_prod
                  then "/autograder/results/results.json"
                  else "./results.json")
    = Some (JsonText (format_gradescope_output score)).
Proof.
  intros Hs. split; [| split].
  - intros Hnum. unfold format_gradescope_output. rewrite Hnum. reflexivity.
  - intros records ->. reflexivity.
  - exact (write_gradescope_output_writes score is_prod w Hs).
Qed.

Lemma report_shape_and_place_witness :
  (exists w',
      write_gradescope_output (VInt 7) (VBool true) empty_world = (Returns tt, w') /\
      read_file w' "/autograder/results/results.json"
      = Some (JsonText (VDict [("score", VInt 7)]))) /\
  (exists w',
      write_gradescope_output two_records (VBool false) empty_world = (Returns tt, w') /\
      read_file w' "./results.json"
      = Some (JsonText (VDict [("tests", two_records)]))).
Proof.
  split.
  - destruct (report_shape_and_place (VInt 7) (VBool true) empty_world eq_refl)
      as (Hnum & _ & w' & Hrun & Hread).
    exists w'. split; [exact Hrun |].
    simpl in Hread. rewrite Hread, (Hnum eq_refl). reflexivity.
  - destruct (report_shape_and_place two_records (VBool false) empty_world eq_refl)
      as (_ & Hlist & w' & Hrun & Hread).
    exists w'. split; [exact Hrun |].
    simpl in Hread. rewrite Hread, (Hlist _ eq_refl). reflexivity.
Defined.

(** C9: for every message, [write_gradescope_output_failure] hands the
    one-record list [[{"score": 0, "status": "failed",
    "name": "Pre-launch check", "output": msg}]] to
    [write_gradescope_output], and the report written is that list under
    the key [tests]. *)
Theorem failure_report_one_record (msg : string) (is_prod : value) (w : world) :
  write_gradescope_output_failure (VStr msg) is_prod w
  = write_gradescope_output
      (VList [VDict [("score", VInt 0); ("status", VStr "failed");
                     ("name", VStr "Pre-launch check"); ("output", VStr msg)]])
      is_prod w /\
  exists w',
    write_gradescope_output_failure (VStr msg) is_prod w = (Returns tt, w') /\
    read_file w' (report_path is_prod)
    = Some (JsonText
              (VDict [("tests",
                       VList [VDict [("score", VInt 0); ("status", VStr "failed");
                                     ("name", VStr "Pre-launch check");
                                     ("output", VStr msg)]])])).
Proof.
  split; [reflexivity |].
  unfold write_gradescope_output_failure.
  destruct (write_gradescope_output_writes (VList [failure_record msg]) is_prod w eq_refl)
    as (w' & Hrun & Hread).
  exists w'. split; [exact Hrun | exact Hread].
Qed.

(** C10: whatever the scaffold returns, the wrapper returns the integer 0
    or the integer 1, and every record of [run_all_tests] has a score of
    0 or 1 and a [max_score] of 1. *)
Theorem scores_are_zero_or_one {Sc} `{AbstractTestScaffold Sc}
    (interpreter : Sc) (tests : list dict) (timeout : Z)
    (zero_credit : value) (w : world) :
  Forall (fun test => test_case_ok test = true) tests ->
  Forall (fun test =>
            forall w0,
              fst (run_test_wrapper interpreter test timeout w0) = Returns (VInt 0) \/
              fst (run_test_wrapper interpreter test timeout w0) = Returns (VInt 1))
         tests /\
  exists results,
    fst (run_all_tests interpreter tests timeout zero_credit w) = Returns results /\
    Forall (fun r => zero_one_score r /\ max_score_field r = Some (VInt 1)) results.
Proof.
  intros Hok. split.
  - revert Hok. apply Forall_impl. intros test Htest w0.
    unfold test_case_ok in Htest. apply andb_true_iff in Htest.
    rewrite (run_test_wrapper_cases interpreter test timeout w0
               (dict_get test "srcfile" VNone)
               (has_key_find test "srcfile" (proj2 Htest))).
    simpl.
    destruct (verdict_score_zero_or_one
                (supervised_outcome interpreter test timeout)) as [Hv | Hv];
      rewrite Hv; [left | right]; reflexivity.
  - exists (map (record_for interpreter timeout zero_credit) tests).
    rewrite (run_all_tests_runnable interpreter timeout zero_credit tests w
               (runnable_of_ok zero_credit tests Hok)).
    split; [reflexivity |].
    apply Forall_forall. intros r Hin. apply in_map_iff in Hin.
    destruct Hin as (test & <- & _). split; [| reflexivity].
    unfold zero_one_score. rewrite record_for_score.
    destruct (recorded_score_zero_or_one interpreter timeout zero_credit test) as [Hs | Hs];
      rewrite Hs; [left | right]; reflexivity.
Qed.

Lemma scores_are_zero_or_one_witness :
  Forall (fun test =>
            forall w0,
              fst (run_test_wrapper returns_half test 5 w0) = Returns (VInt 0) \/
              fst (run_test_wrapper returns_half test 5 w0) = Returns (VInt 1))
         [t1; t2] /\
  exists results,
    fst (run_all_tests returns_half [t1; t2] 5 (VBool false) empty_world)
    = Returns results /\
    Forall (fun r => zero_one_score r /\ max_score_field r = Some (VInt 1)) results.
Proof.
  apply (scores_are_zero_or_one returns_half [t1; t2] 5 (VBool false) empty_world).
  repeat constructor.
Defined.

(** * Further properties of the harness *)

(** ** What [run_test] leaves uncaught *)

(** X1: an exception raised by [setup] leaves [run_test] as it was
    raised: [run_test_case] is not called, nothing is logged, nothing is
    put on the queue; when [setup] took no longer than the timeout, the
    supervisor finds the queue empty and returns 0. *)
Theorem setup_exception_propagates {Sc} `{AbstractTestScaffold Sc}
    (scaffold : Sc) (test_case : dict) (e : exn) (timeout : Z) (s : wstate) (w : world) :
  b_end (setup scaffold test_case) = Raises e ->
  (b_time (setup scaffold test_case) <= Z.to_N timeout)%N ->
  run_test scaffold test_case s
  = (Raises e,
     WState (w_queue s)
            (w_out s ++ b_out (setup scaffold test_case))
            (w_time s + b_time (setup scaffold test_case))) /\
  run_test_in_process scaffold test_case timeout w
  = (Returns (VInt 0),
     World (stdout w) (procs w ++ [ProcStart test_case; ProcJoin (Some timeout)]) (fs w)).
Proof.
  intros Hs Ht.
  assert (Hrun : forall s0, run_test scaffold test_case s0
                 = (Raises e,
                    WState (w_queue s0)
                           (w_out s0 ++ b_out (setup scaffold test_case))
                           (w_time s0 + b_time (setup scaffold test_case)))).
  { intros s0. unfold run_test, bind, perform. rewrite Hs. reflexivity. }
  split; [apply Hrun |].
  rewrite run_test_in_process_cases.
  unfold supervised_outcome, supervised_events, target, with_events, events_in_time.
  rewrite Hrun. unfold ended_by, exits. cbn [fst snd w_queue w_time wstart].
  rewrite N.add_0_l.
  replace (_ <=? Z.to_N timeout)%N with true; [reflexivity |].
  symmetry. apply N.leb_le. exact Ht.
Qed.

Lemma setup_exception_propagates_witness :
  run_test setup_fails t1 wstart
  = (Raises (ValueError "no such file"), WState [] [] 1) /\
  run_test_in_process setup_fails t1 5 empty_world
  = (Returns (VInt 0),
     World [] [ProcStart t1; ProcJoin (Some 5)] (FileSystem [] [])).
Proof.
  assert (Hquick : (b_time (setup setup_fails t1) <= Z.to_N 5)%N) by (simpl; lia).
  exact (setup_exception_propagates setup_fails t1 (ValueError "no such file") 5
           wstart empty_world eq_refl Hquick).
Defined.

(** X2: an exception of [run_test_case] whose class does not derive from
    [Exception] ([SystemExit], [KeyboardInterrupt]) passes the handler:
    [run_test] raises it, logs nothing and puts nothing on the queue. *)
Theorem base_exception_not_caught {Sc} `{AbstractTestScaffold Sc}
    (scaffold : Sc) (test_case : dict) (env : value) (e : exn) (s : wstate) :
  b_end (setup scaffold test_case) = Returns env ->
  b_end (run_test_case scaffold test_case env) = Raises e ->
  exn_is_Exception e = false ->
  run_test scaffold test_case s
  = (Raises e,
     WState (w_queue s)
            ((w_out s ++ b_out (setup scaffold test_case))
               ++ b_out (run_test_case scaffold test_case env))
            (w_time s + b_time (setup scaffold test_case)
               + b_time (run_test_case scaffold test_case env))).
Proof.
  intros Hs Hr He.
  unfold run_test, bind, try_except_Exception, perform.
  rewrite Hs. simpl. rewrite Hr. simpl. rewrite He. reflexivity.
Qed.

Lemma base_exception_not_caught_witness :
  run_test run_exits t1 wstart = (Raises SystemExit, WState [] [] 2).
Proof.
  exact (base_exception_not_caught run_exits t1 VNone SystemExit wstart
           eq_refl eq_refl eq_refl).
Defined.

(** X3: [run_test] puts at most one object on the queue, after what was
    there, and exactly one when it returns. *)
Theorem run_test_puts_at_most_once {Sc} `{AbstractTestScaffold Sc}
    (scaffold : Sc) (test_case : dict) (s : wstate) :
  exists items,
    w_queue (snd (run_test scaffold test_case s)) = w_queue s ++ items /\
    (List.length items <= 1)%nat /\
    (fst (run_test scaffold test_case s) = Returns tt <-> List.length items = 1%nat).
Proof.
  unfold run_test, bind, try_except_Exception, perform, queue_put, wprint.
  destruct (b_end (setup scaffold test_case)) as [env | e | | ]; simpl.
  2-4: exists []; rewrite app_nil_r; simpl;
       (split; [reflexivity | split; [lia | split; discriminate]]).
  destruct (b_end (run_test_case scaffold test_case env)) as [v | e | | ]; simpl.
  - exists [v]. simpl. split; [reflexivity |]. split; [lia |]. split; reflexivity.
  - destruct (exn_is_Exception e); simpl.
    + exists [VInt 0]. simpl. split; [reflexivity |]. split; [lia |].
      split; reflexivity.
    + exists []. rewrite app_nil_r; simpl.
      split; [reflexivity |]. split; [lia |]. split; discriminate.
  - exists []. rewrite app_nil_r; simpl.
    split; [reflexivity |]. split; [lia |]. split; discriminate.
  - exists []. rewrite app_nil_r; simpl.
    split; [reflexivity |]. split; [lia |]. split; discriminate.
Qed.

(** ** The supervisor and the wrapper *)

(** X4: a test whose [run_test_case] returns [None] within the timeout is
    reported as TIMED OUT and scored 0, though its worker ended in time
    and was never terminated. *)
Theorem None_result_reported_as_timeout {Sc} `{AbstractTestScaffold Sc}
    (interpreter : Sc) (test_case : dict) (timeout : Z) (w : world) (srcfile : value) :
  dict_find test_case "srcfile" = Some srcfile ->
  returns_in_time interpreter test_case timeout VNone ->
  alive_after interpreter test_case timeout = false /\
  run_test_wrapper interpreter test_case timeout w
  = (Returns (VInt 0),
     World (stdout w ++ [Printed [Lit "Running "; FVal srcfile; Lit "... "] EmptyString;
                         line [Lit "TIMED OUT"]])
           (procs w ++ [ProcStart test_case; ProcJoin (Some timeout)])
           (fs w)).
Proof.
  intros Hsrc Hin.
  destruct (ended_by_returns_in_time interpreter test_case timeout VNone Hin)
    as [Hend _].
  change (flushed [VNone]) with true in Hend.
  split.
  - rewrite ended_by_alive_after in Hend.
    destruct (alive_after interpreter test_case timeout);
      [discriminate Hend | reflexivity].
  - rewrite (run_test_wrapper_cases interpreter test_case timeout w srcfile Hsrc).
    rewrite (outcome_returns_in_time interpreter test_case timeout VNone Hin).
    unfold supervised_events. rewrite Hend. reflexivity.
Qed.

Lemma None_result_reported_as_timeout_witness :
  alive_after returns_None t1 5 = false /\
  run_test_wrapper returns_None t1 5 empty_world
  = (Returns (VInt 0),
     World [Printed [Lit "Running "; FVal (VStr "a.py"); Lit "... "] EmptyString;
            line [Lit "TIMED OUT"]]
           [ProcStart t1; ProcJoin (Some 5)]
           (FileSystem [] [])).
Proof.
  assert (Hin : returns_in_time returns_None t1 5 VNone).
  { exists VNone. split; [reflexivity |]. split; [reflexivity |]. simpl. lia. }
  exact (None_result_reported_as_timeout returns_None t1 5 empty_world (VStr "a.py")
           eq_refl Hin).
Defined.



Lemma ended_by_later (tg : ending unit * wstate) (t t' : N) :
  (t <= t')%N -> ended_by tg t = true -> ended_by tg t' = true.
Proof.
  unfold ended_by. intros Hle Hend.
  apply andb_true_iff in Hend. destruct Hend as [Hexits Hend].
  rewrite Hexits. apply N.leb_le in Hend. apply N.leb_le. lia.
Qed.

(** X6: a longer timeout never turns a pass into a failure: a test that
    scores 1 with a timeout scores 1 with every longer one. *)
Theorem longer_timeout_keeps_pass {Sc} `{AbstractTestScaffold Sc}
    (interpreter : Sc) (test_case : dict) (timeout timeout' : Z) (w w' : world) :
  timeout <= timeout' ->
  fst (run_test_wrapper interpreter test_case timeout w) = Returns (VInt 1) ->
  fst (run_test_wrapper interpreter test_case timeout' w') = Returns (VInt 1).
Proof.
  intros Hle.
  destruct (dict_find test_case "srcfile") as [srcfile |] eqn:Hsrc.
  2: { rewrite (run_test_wrapper_no_srcfile interpreter test_case timeout w Hsrc).
       discriminate. }
  rewrite (run_test_wrapper_cases interpreter test_case timeout w srcfile Hsrc).
  rewrite (run_test_wrapper_cases interpreter test_case timeout' w' srcfile Hsrc).
  simpl. unfold supervised_outcome.
  destruct (ended_by (target interpreter test_case) (Z.to_N timeout)) eqn:Hend.
  - rewrite (ended_by_later _ (Z.to_N timeout) (Z.to_N timeout')); [trivial | | exact Hend].
    lia.
  - simpl. discriminate.
Qed.

Lemma longer_timeout_keeps_pass_witness :
  fst (run_test_wrapper returns_one t1 9 empty_world) = Returns (VInt 1).
Proof.
  assert (Hle : 3 <= 9) by lia.
  exact (longer_timeout_keeps_pass returns_one t1 3 9 empty_world empty_world
           Hle eq_refl).
Defined.

(** ** The orchestrator *)

Lemma for_each_stops {St A B} (f : A -> comp St B) (good rest : list A) (bad : A)
    (ys : list B) (e : exn) (s s1 s2 : St) :
  for_each f good s = (Returns ys, s1) ->
  f bad s1 = (Raises e, s2) ->
  for_each f (good ++ bad :: rest) s = (Raises e, s2).
Proof.
  revert ys s. induction good as [| x good IH]; intros ys s Hgood Hbad; simpl in *.
  - unfold ret in Hgood. injection Hgood as _ <-.
    unfold bind. rewrite Hbad. reflexivity.
  - unfold bind in Hgood |- *.
    destruct (f x s) as [[y | e0 | | ] s'] eqn:Hx; try discriminate Hgood.
    fold (bind (for_each f good) (fun zs => ret (y :: zs)) s') in Hgood.
    unfold bind in Hgood.
    destruct (for_each f good s') as [[zs | e0 | | ] s''] eqn:Hrest;
      try discriminate Hgood.
    unfold ret in Hgood. injection Hgood as _ <-.
    fold (bind (for_each f (good ++ bad :: rest)) (fun zs => ret (y :: zs)) s').
    unfold bind. rewrite (IH zs s' Hrest Hbad). reflexivity.
Qed.

(** X7: [run_all_tests] stops at the first test case it cannot build a
    record for: one with no [name], or (when tests are run) one with no
    [srcfile].  It raises [KeyError] for the missing key and returns no
    results; the test cases before have been run and reported on the
    terminal, the ones after are not run, and no summary is printed. *)
Theorem run_all_tests_stops_at_missing_key {Sc} `{AbstractTestScaffold Sc}
    (interpreter : Sc) (good rest : list dict) (bad : dict)
    (timeout_per_test : Z) (zero_credit : value) (w : world) :
  Forall (runnable zero_credit) good ->
  (dict_find bad "name" = None ->
   run_all_tests interpreter (good ++ bad :: rest) timeout_per_test zero_credit w
   = (Raises (KeyError "name"),
      World ((stdout w ++ [opening_line (good ++ bad :: rest)])
               ++ flat_map (prints_for interpreter timeout_per_test zero_credit) good)
            (procs w ++ flat_map (events_for interpreter timeout_per_test zero_credit) good)
            (fs w))) /\
  (has_key bad "name" = true ->
   truthy zero_credit = false ->
   dict_find bad "srcfile" = None ->
   run_all_tests interpreter (good ++ bad :: rest) timeout_per_test zero_credit w
   = (Raises (KeyError "srcfile"),
      World ((stdout w ++ [opening_line (good ++ bad :: rest)])
               ++ flat_map (prints_for interpreter timeout_per_test zero_credit) good)
            (procs w ++ flat_map (events_for interpreter timeout_per_test zero_credit) good)
            (fs w))).
Proof.
  intros Hgood.
  pose proof (fun w0 =>
                for_each_result_record interpreter timeout_per_test zero_credit
                  good w0 Hgood) as Hrun.
  split.
  - intros Hname.
    unfold run_all_tests, bind at 1, print at 1, print_end at 1.
    unfold bind at 1.
    erewrite for_each_stops; [reflexivity | apply Hrun |].
    unfold result_record, getitem, bind. rewrite Hname. reflexivity.
  - intros Hname Hz Hsrc.
    unfold run_all_tests, bind at 1, print at 1, print_end at 1.
    unfold bind at 1.
    erewrite for_each_stops; [reflexivity | apply Hrun |].
    unfold result_record, getitem, bind at 1.
    rewrite (has_key_find bad "name" Hname). unfold ret at 1. rewrite Hz. simpl.
    unfold bind. rewrite run_test_wrapper_no_srcfile; [reflexivity | exact Hsrc].
Qed.

Lemma run_all_tests_stops_at_missing_key_witness :
  run_all_tests returns_one [t1; unnamed; t2] 5 (VBool false) empty_world
  = (Raises (KeyError "name"),
     World [line [Lit "Running "; FVal (VInt 3); Lit " tests..."];
            Printed [Lit "Running "; FVal (VStr "a.py"); Lit "... "] EmptyString;
            line [Lit "PASSED"]]
           [ProcStart t1; ProcJoin (Some 5)]
           (FileSystem [] [])) /\
  run_all_tests returns_one [t1; sourceless; t2] 5 (VBool false) empty_world
  = (Raises (KeyError "srcfile"),
     World [line [Lit "Running "; FVal (VInt 3); Lit " tests..."];
            Printed [Lit "Running "; FVal (VStr "a.py"); Lit "... "] EmptyString;
            line [Lit "PASSED"]]
           [ProcStart t1; ProcJoin (Some 5)]
           (FileSystem [] [])).
Proof.
  assert (Hgood : Forall (runnable (VBool false)) [t1]).
  { apply Forall_cons; [| apply Forall_nil]. split; [reflexivity | intros _; reflexivity]. }
  split.
  - exact (proj1 (run_all_tests_stops_at_missing_key returns_one [t1] [t2] unnamed 5
                    (VBool false) empty_world Hgood) eq_refl).
  - exact (proj2 (run_all_tests_stops_at_missing_key returns_one [t1] [t2] sourceless 5
                    (VBool false) empty_world Hgood) eq_refl eq_refl eq_refl).
Defined.

Lemma started_app (a b : list proc_event) :
  started (a ++ b) = started a ++ started b.
Proof.
  induction a as [| ev a IH]; simpl; [reflexivity |].
  destruct ev; simpl; rewrite IH; reflexivity.
Qed.

Lemma started_supervised {Sc} `{AbstractTestScaffold Sc}
    (interpreter : Sc) (test_case : dict) (timeout : Z) :
  started (supervised_events interpreter test_case timeout) = [test_case].
Proof.
  unfold supervised_events, events_in_time, events_timed_out.
  destruct (ended_by _ _); reflexivity.
Qed.

(** X8: when tests are run, [run_all_tests] starts exactly one process
    per test case, in the order of the input. *)
Theorem one_process_per_test {Sc} `{AbstractTestScaffold Sc}
    (interpreter : Sc) (tests : list dict) (timeout_per_test : Z)
    (zero_credit : value) (w : world) :
  truthy zero_credit = false ->
  Forall (fun test => test_case_ok test = true) tests ->
  started (procs (snd (run_all_tests interpreter tests timeout_per_test zero_credit w)))
  = started (procs w) ++ tests.
Proof.
  intros Hz Hok.
  rewrite (run_all_tests_runnable interpreter timeout_per_test zero_credit tests w
             (runnable_of_ok zero_credit tests Hok)).
  simpl. rewrite started_app. f_equal.
  clear Hok. induction tests as [| test rest IH]; simpl; [reflexivity |].
  rewrite started_app, IH. unfold events_for at 1. rewrite Hz.
  rewrite started_supervised. reflexivity.
Qed.

Lemma one_process_per_test_witness :
  started (procs (snd (run_all_tests slow [t1; t2] 5 (VBool false) empty_world)))
  = [t1; t2].
Proof.
  assert (Hok : Forall (fun test => test_case_ok test = true) [t1; t2]).
  { apply Forall_cons; [reflexivity |]. apply Forall_cons; [reflexivity |].
    apply Forall_nil. }
  exact (one_process_per_test slow [t1; t2] 5 (VBool false) empty_world eq_refl Hok).
Defined.

Lemma count_le (f : value -> bool) (l : list value) :
  (count f l <= List.length l)%nat.
Proof. unfold count. apply filter_length_le. Qed.

(** X10: the summary line [run_all_tests] prints last shows the score
    [get_score] gives for the list it returns, over the number of test
    cases; that score is the number of records with score 1 and lies
    between 0 and the number of test cases. *)
Theorem summary_line_shows_score {Sc} `{AbstractTestScaffold Sc}
    (interpreter : Sc) (tests : list dict) (timeout_per_test : Z)
    (zero_credit : value) (w : world) :
  Forall (fun test => test_case_ok test = true) tests ->
  exists results w' before passed,
    run_all_tests interpreter tests timeout_per_test zero_credit w
    = (Returns results, w') /\
    stdout w' = before ++ [summary_line passed tests] /\
    get_score results w' = (Returns passed, w') /\
    passed = Z.of_nat (count score_is_one results) /\
    0 <= passed <= Z.of_nat (List.length tests).
Proof.
  intros Hok.
  rewrite (run_all_tests_runnable interpreter timeout_per_test zero_credit tests w
             (runnable_of_ok zero_credit tests Hok)).
  do 4 eexists. split; [reflexivity |]. simpl.
  split; [reflexivity |].
  split; [apply get_score_truthy; apply records_have_scores |].
  split.
  - unfold count. f_equal. f_equal. apply filter_agree.
    apply Forall_forall. intros r Hin. apply in_map_iff in Hin.
    destruct Hin as (test & <- & _).
    unfold truthy_score, score_is_one. rewrite record_for_score.
    destruct (recorded_score_zero_or_one interpreter timeout_per_test zero_credit test)
      as [Hs | Hs]; rewrite Hs; reflexivity.
  - pose proof (count_le truthy_score
                  (map (record_for interpreter timeout_per_test zero_credit) tests))
      as Hle.
    rewrite length_map in Hle. lia.
Qed.

Lemma summary_line_shows_score_witness :
  exists results w' before passed,
    run_all_tests returns_one [t1; t2] 5 (VBool false) empty_world
    = (Returns results, w') /\
    stdout w' = before ++ [summary_line passed [t1; t2]] /\
    get_score results w' = (Returns passed, w') /\
    passed = Z.of_nat (count score_is_one results) /\
    0 <= passed <= 2.
Proof.
  assert (Hok : Forall (fun test => test_case_ok test = true) [t1; t2]).
  { apply Forall_cons; [reflexivity |]. apply Forall_cons; [reflexivity |].
    apply Forall_nil. }
  exact (summary_line_shows_score returns_one [t1; t2] 5 (VBool false) empty_world Hok).
Defined.

(** ** The score aggregator on any list *)

Lemma subscript_score_pure (r : value) :
  exists o : ending value, forall (St : Type) (s : St), subscript r "score" s = (o, s).
Proof.
  destruct r; simpl; try (eexists; intros; unfold raise; reflexivity).
  unfold getitem. destruct (dict_find d "score");
    eexists; intros; reflexivity.
Qed.

Lemma filter_list_pure (results : list value) :
  exists o : ending (list value),
    forall (St : Type) (s : St),
      filter_list (fun result => subscript result "score") results s = (o, s).
Proof.
  induction results as [| r rest [orest IH]]; simpl.
  - eexists. intros. reflexivity.
  - destruct (subscript_score_pure r) as [[v | e | | ] Hr].
    + destruct orest as [kept | e | | ];
        eexists; intros St s; unfold bind; rewrite Hr, IH; reflexivity.
    + eexists. intros St s. unfold bind. rewrite Hr. reflexivity.
    + eexists. intros St s. unfold bind. rewrite Hr. reflexivity.
    + eexists. intros St s. unfold bind. rewrite Hr. reflexivity.
Qed.

Lemma filter_list_returns_inv {St} (results kept : list value) (s s' : St) :
  filter_list (fun result => subscript result "score") results s = (Returns kept, s') ->
  Forall (fun r => score_field r <> None) results.
Proof.
  revert kept. induction results as [| r rest IH]; intros kept Hrun.
  - apply Forall_nil.
  - simpl in Hrun. unfold bind in Hrun.
    destruct (score_field r) as [v |] eqn:Hv.
    + rewrite (subscript_score r s v Hv) in Hrun.
      destruct (filter_list_pure rest) as [[kept' | e | | ] Hf];
        rewrite Hf in Hrun; try discriminate Hrun.
      unfold ret in Hrun. injection Hrun as _ <-.
      apply Forall_cons; [rewrite Hv; discriminate |].
      apply (IH kept'). apply Hf.
    + exfalso. destruct r; simpl in Hv, Hrun; try discriminate Hrun.
      unfold getitem in Hrun. rewrite Hv in Hrun. discriminate Hrun.
Qed.

Lemma get_score_returns_inv {St} (results : list value) (n : Z) (s s' : St) :
  get_score results s = (Returns n, s') ->
  Forall (fun r => score_field r <> None) results.
Proof.
  unfold get_score, bind. intros Hrun.
  destruct (filter_list _ results s) as [[kept | e | | ] s0] eqn:Hf;
    try discriminate Hrun.
  exact (filter_list_returns_inv results kept s s0 Hf).
Qed.

(** X11: the score of two result lists put together is the sum of their
    scores, and the score of a list lies between 0 and its length. *)
Theorem get_score_adds_up {St} (results1 results2 : list value) (n1 n2 : Z)
    (s s1 s2 : St) :
  get_score results1 s = (Returns n1, s1) ->
  get_score results2 s = (Returns n2, s2) ->
  get_score (results1 ++ results2) s = (Returns (n1 + n2), s) /\
  0 <= n1 <= Z.of_nat (List.length results1).
Proof.
  intros H1 H2.
  pose proof (get_score_returns_inv results1 n1 s s1 H1) as F1.
  pose proof (get_score_returns_inv results2 n2 s s2 H2) as F2.
  rewrite (get_score_truthy results1 s F1) in H1.
  rewrite (get_score_truthy results2 s F2) in H2.
  injection H1 as <- _. injection H2 as <- _.
  split.
  - rewrite (get_score_truthy (results1 ++ results2) s);
      [| apply Forall_app; split; assumption].
    unfold count. rewrite filter_app, length_app, Nat2Z.inj_add. reflexivity.
  - pose proof (count_le truthy_score results1). lia.
Qed.

Lemma get_score_adds_up_witness :
  get_score (three_records ++ three_records) tt = (Returns (2 + 2), tt) /\
  0 <= 2 <= Z.of_nat (List.length three_records).
Proof.
  exact (get_score_adds_up three_records three_records 2 2 tt tt tt eq_refl eq_refl).
Defined.

(** X12: on a list whose first record without a [score] key is a
    dictionary, [get_score] raises [KeyError] for that key, in whatever
    state it runs, and leaves the state as it was. *)
Theorem get_score_missing_score {St} (good rest : list value) (d : dict) (s : St) :
  Forall (fun r => score_field r <> None) good ->
  dict_find d "score" = None ->
  get_score (good ++ VDict d :: rest) s = (Raises (KeyError "score"), s).
Proof.
  intros Hgood Hd. unfold get_score, bind.
  replace (filter_list (fun result => subscript result "score")
             (good ++ VDict d :: rest) s)
    with (@Raises (list value) (KeyError "score"), s); [reflexivity |].
  symmetry. induction Hgood as [| r good Hr _ IH]; simpl.
  - unfold bind, getitem. rewrite Hd. reflexivity.
  - destruct (score_field r) as [v |] eqn:Hv; [| contradiction Hr; reflexivity].
    unfold bind. rewrite (subscript_score r s v Hv), IH. reflexivity.
Qed.

Lemma get_score_missing_score_witness :
  get_score (three_records ++ [VDict [("name", VStr "d")]]) tt
  = (Raises (KeyError "score"), tt).
Proof.
  assert (Hgood : Forall (fun r => score_field r <> None) three_records).
  { repeat (apply Forall_cons; [discriminate |]). apply Forall_nil. }
  exact (get_score_missing_score three_records [] [("name", VStr "d")] tt
           Hgood eq_refl).
Defined.

(** ** The report writer *)

Lemma read_set_file (path path' : string) (c : content) (w : world) :
  read_file (snd (set_file path c w)) path'
  = if String.eqb path path' then Some c else read_file w path'.
Proof.
  unfold read_file, set_file; simpl.
  destruct (String.eqb path path') eqn:Heq; [reflexivity |].
  induction (fs_files (fs w)) as [| [p c0] files IH]; simpl; [reflexivity |].
  destruct (String.eqb p path) eqn:Hp; simpl.
  - apply String.eqb_eq in Hp. subst p. rewrite Heq. exact IH.
  - rewrite IH. reflexivity.
Qed.

Lemma report_path_dir (is_prod : value) :
  (report_dir is_prod ++ "/results.json")%string = report_path is_prod.
Proof. unfold report_dir, report_path. destruct (truthy is_prod); reflexivity. Qed.

Lemma write_gradescope_output_steps (score is_prod : value) (w : world) :
  write_gradescope_output score is_prod w
  = let opened := snd (set_file (report_path is_prod) Partial (with_report_dir is_prod w)) in
    if json_serializable (format_gradescope_output score)
    then (Returns tt,
          snd (set_file (report_path is_prod)
                 (JsonText (format_gradescope_output score)) opened))
    else (Raises (TypeError "Object is not JSON serializable"), opened).
Proof.
  unfold write_gradescope_output, with_report_dir, path_exists.
  fold (report_dir is_prod). rewrite report_path_dir.
  unfold bind at 1, exists_ at 1. cbn [fst].
  destruct (fs_exists (fs w) (report_dir is_prod)) eqn:Hthere; cbn [negb];
    unfold open_w, json_dump, makedirs; run_parent; try rewrite Hthere;
    destruct (json_serializable (format_gradescope_output score)); reflexivity.
Qed.

Lemma set_file_keeps (path : string) (c : content) (w : world) :
  stdout (snd (set_file path c w)) = stdout w /\
  procs (snd (set_file path c w)) = procs w /\
  fs_dirs (fs (snd (set_file path c w))) = fs_dirs (fs w).
Proof. repeat split. Qed.

Lemma with_report_dir_keeps (is_prod : value) (w : world) (path : string) :
  read_file (with_report_dir is_prod w) path = read_file w path /\
  procs (with_report_dir is_prod w) = procs w.
Proof.
  unfold with_report_dir. destruct (path_exists w (report_dir is_prod)); split; reflexivity.
Qed.

Lemma format_serializable_iff (results : value) :
  json_serializable (format_gradescope_output results) = json_serializable results.
Proof.
  unfold format_gradescope_output.
  destruct (is_int_or_float results); simpl; apply andb_true_r.
Qed.

(** X14: [write_gradescope_output] touches one file only: every other
    file holds what it held, whether the call returns or raises, and no
    process is started. *)
Theorem write_touches_only_the_report (score is_prod : value) (w : world) (path : string) :
  path <> report_path is_prod ->
  read_file (snd (write_gradescope_output score is_prod w)) path = read_file w path /\
  procs (snd (write_gradescope_output score is_prod w)) = procs w.
Proof.
  intros Hother. rewrite write_gradescope_output_steps. cbv zeta.
  assert (Hneq : String.eqb (report_path is_prod) path = false).
  { apply String.eqb_neq. intros Heq. apply Hother. symmetry. exact Heq. }
  destruct (json_serializable (format_gradescope_output score)); cbn [snd].
  - rewrite !read_set_file, Hneq.
    split; [apply with_report_dir_keeps |].
    apply (with_report_dir_keeps is_prod w path).
  - rewrite read_set_file, Hneq.
    split; [apply with_report_dir_keeps |].
    apply (with_report_dir_keeps is_prod w path).
Qed.

Lemma write_touches_only_the_report_witness :
  read_file (snd (write_gradescope_output (VInt 7) (VBool false)
                    (snd (write_gradescope_output (VInt 3) (VBool true) empty_world))))
            "/autograder/results/results.json"
  = Some (JsonText (VDict [("score", VInt 3)])).
Proof.
  assert (Hother : "/autograder/results/results.json" <> report_path (VBool false))
    by discriminate.
  rewrite (proj1 (write_touches_only_the_report (VInt 7) (VBool false)
                    (snd (write_gradescope_output (VInt 3) (VBool true) empty_world))
                    "/autograder/results/results.json" Hother)).
  reflexivity.
Defined.

(** X15: the report is overwritten, not appended to: after two writes to
    the same place the file holds the document of the second. *)
Theorem second_report_replaces_first (score1 score2 is_prod : value) (w : world) :
  json_serializable score2 = true ->
  exists w',
    write_gradescope_output score2 is_prod
      (snd (write_gradescope_output score1 is_prod w))
    = (Returns tt, w') /\
    read_file w' (report_path is_prod)
    = Some (JsonText (format_gradescope_output score2)) /\
    List.length (filter (fun kv => String.eqb (fst kv) (report_path is_prod))
                        (fs_files (fs w'))) = 1%nat.
Proof.
  intros Hs. rewrite write_gradescope_output_steps. cbv zeta.
  rewrite format_serializable_iff, Hs.
  eexists. split; [reflexivity |]. split.
  - rewrite read_set_file, String.eqb_refl. reflexivity.
  - unfold set_file at 1; simpl. rewrite String.eqb_refl. simpl. f_equal.
    match goal with
    | |- List.length (filter ?f (filter ?g ?l)) = _ =>
        induction l as [| [p c] files IH]; simpl; [reflexivity |]
    end.
    destruct (String.eqb p (report_path is_prod)) eqn:Hp; simpl; [exact IH |].
    rewrite Hp. exact IH.
Qed.

Lemma second_report_replaces_first_witness :
  exists w',
    write_gradescope_output (VInt 7) (VBool false)
      (snd (write_gradescope_output two_records (VBool false) empty_world))
    = (Returns tt, w') /\
    read_file w' "./results.json" = Some (JsonText (VDict [("score", VInt 7)])) /\
    List.length (filter (fun kv => String.eqb (fst kv) "./results.json")
                        (fs_files (fs w'))) = 1%nat.
Proof.
  exact (second_report_replaces_first two_records (VInt 7) (VBool false) empty_world
           eq_refl).
Defined.

Lemma write_gradescope_output_notice (score is_prod : value) (w : world) :
  stdout (snd (write_gradescope_output score is_prod w))
  = stdout (with_report_dir is_prod w) /\
  fs_dirs (fs (snd (write_gradescope_output score is_prod w)))
  = fs_dirs (fs (with_report_dir is_prod w)).
Proof.
  rewrite write_gradescope_output_steps. cbv zeta.
  destruct (json_serializable (format_gradescope_output score)); split; reflexivity.
Qed.

Lemma has_path_filter {A} (p q : string) (entries : list (string * A)) :
  String.eqb q p = false ->
  has_path p (filter (fun kv => negb (String.eqb (fst kv) q)) entries)
  = has_path p entries.
Proof.
  intros Hneq. unfold has_path.
  induction entries as [| [k a] entries IH]; simpl; [reflexivity |].
  destruct (String.eqb k q) eqn:Hk; simpl.
  - apply String.eqb_eq in Hk. subst k. rewrite Hneq. exact IH.
  - rewrite IH. reflexivity.
Qed.

Lemma set_file_keeps_existing (p q : string) (c : content) (w : world) :
  path_exists w p = true -> path_exists (snd (set_file q c w)) p = true.
Proof.
  unfold path_exists, exists_, fs_exists, set_file.
  cbn [fst snd fs fs_dirs fs_files]. intros Hthere.
  apply orb_true_iff in Hthere. destruct Hthere as [Hthere | Hfile].
  - rewrite Hthere. reflexivity.
  - apply orb_true_iff. right. unfold has_path at 1. cbn [existsb fst].
    destruct (String.eqb q p) eqn:Hq; [reflexivity |].
    cbn [orb]. fold (has_path p (filter (fun kv => negb (String.eqb (fst kv) q))
                                        (fs_files (fs w)))).
    rewrite (has_path_filter p q _ Hq). exact Hfile.
Qed.

Lemma report_dir_there (is_prod : value) (w : world) :
  path_exists (with_report_dir is_prod w) (report_dir is_prod) = true.
Proof.
  unfold with_report_dir.
  destruct (path_exists w (report_dir is_prod)) eqn:Hthere; [exact Hthere |].
  unfold path_exists, exists_, fs_exists. cbn [fst fs fs_dirs fs_files].
  rewrite !existsb_app. cbn [existsb]. rewrite String.eqb_refl.
  cbn [orb]. rewrite !orb_true_r. reflexivity.
Qed.

(** X17: once [write_gradescope_output] has run, the directory of the
    report is there, also when the call raised: a second write to the
    same place creates nothing and prints nothing. *)
Theorem directory_created_once (score1 score2 is_prod : value) (w : world) :
  stdout (snd (write_gradescope_output score2 is_prod
                 (snd (write_gradescope_output score1 is_prod w))))
  = stdout (snd (write_gradescope_output score1 is_prod w)) /\
  fs_dirs (fs (snd (write_gradescope_output score2 is_prod
                      (snd (write_gradescope_output score1 is_prod w)))))
  = fs_dirs (fs (snd (write_gradescope_output score1 is_prod w))).
Proof.
  destruct (write_gradescope_output_notice score2 is_prod
              (snd (write_gradescope_output score1 is_prod w))) as [Hout Hdirs].
  rewrite Hout, Hdirs.
  assert (Hthere : path_exists (snd (write_gradescope_output score1 is_prod w))
                     (report_dir is_prod) = true).
  { rewrite write_gradescope_output_steps. cbv zeta.
    destruct (json_serializable (format_gradescope_output score1)); cbn [snd];
      repeat apply set_file_keeps_existing; apply report_dir_there. }
  unfold with_report_dir. rewrite Hthere. split; reflexivity.
Qed.

Lemma written_path_exists (score is_prod : value) (w : world) (path : string) :
  path_exists (with_report_dir is_prod w) path = true ->
  path_exists (snd (write_gradescope_output score is_prod w)) path = true.
Proof.
  intros Hthere. rewrite write_gradescope_output_steps. cbv zeta.
  destruct (json_serializable (format_gradescope_output score)); cbn [snd];
    repeat apply set_file_keeps_existing; exact Hthere.
Qed.

(** X16: in production, when nothing is at [/autograder/results],
    [write_gradescope_output] says so once and afterwards both that
    directory and the one above it exist, and every directory that was
    there still is; outside production, or when something is at that
    path, it prints nothing and creates no directory. *)
Theorem directory_created_when_missing (score is_prod : value) (w : world) :
  (truthy is_prod = true ->
   path_exists w "/autograder/results" = false ->
   stdout (snd (write_gradescope_output score is_prod w))
   = stdout w ++ [creation_notice] /\
   path_exists (snd (write_gradescope_output score is_prod w)) "/autograder/results"
   = true /\
   path_exists (snd (write_gradescope_output score is_prod w)) "/autograder" = true /\
   (forall dir,
       In dir (fs_dirs (fs w)) ->
       In dir (fs_dirs (fs (snd (write_gradescope_output score is_prod w)))))) /\
  (truthy is_prod = false \/ path_exists w "/autograder/results" = true ->
   stdout (snd (write_gradescope_output score is_prod w)) = stdout w /\
   fs_dirs (fs (snd (write_gradescope_output score is_prod w))) = fs_dirs (fs w)).
Proof.
  destruct (write_gradescope_output_notice score is_prod w) as [Hout Hdirs].
  split.
  - intros Hprod Hmissing.
    assert (Hdir : report_dir is_prod = "/autograder/results").
    { unfold report_dir. rewrite Hprod. reflexivity. }
    split; [| split; [| split]].
    + rewrite Hout. unfold with_report_dir. rewrite Hdir, Hmissing. reflexivity.
    + apply written_path_exists. rewrite <- Hdir. apply report_dir_there.
    + apply written_path_exists.
      unfold with_report_dir. rewrite Hdir, Hmissing.
      unfold path_exists, exists_, fs_exists, missing_above. cbn [fst fs fs_dirs fs_files].
      destruct (fs_exists (fs w) "/autograder") eqn:Hup.
      * unfold fs_exists in Hup. cbn [String.eqb Ascii.eqb Bool.eqb] in Hup.
        cbn [String.eqb Ascii.eqb Bool.eqb orb].
        rewrite existsb_app. apply orb_true_iff in Hup.
        destruct Hup as [Hup | Hup]; [| rewrite Hup; apply orb_true_r].
        cbn [orb] in Hup. rewrite Hup. reflexivity.
      * change (ancestors "/autograder/results") with ["/autograder"].
        cbn [rev app take_while]. rewrite Hup. cbn [negb rev app].
        rewrite existsb_app. cbn [existsb]. rewrite String.eqb_refl.
        cbn [orb]. rewrite !orb_true_r. reflexivity.
    + intros dir Hin. rewrite Hdirs. unfold with_report_dir.
      rewrite Hdir, Hmissing. cbn [fs fs_dirs]. apply in_or_app. left. exact Hin.
  - intros Hcase. rewrite Hout, Hdirs. unfold with_report_dir, report_dir.
    destruct Hcase as [Hdev | Hthere].
    + rewrite Hdev. split; reflexivity.
    + destruct (truthy is_prod); [rewrite Hthere |]; split; reflexivity.
Qed.

Lemma directory_created_when_missing_witness :
  (stdout (snd (write_gradescope_output (VInt 7) (VBool true) empty_world))
   = [creation_notice] /\
   path_exists (snd (write_gradescope_output (VInt 7) (VBool true) empty_world))
     "/autograder/results" = true /\
   path_exists (snd (write_gradescope_output (VInt 7) (VBool true) empty_world))
     "/autograder" = true /\
   (forall dir,
       In dir [] ->
       In dir (fs_dirs (fs (snd (write_gradescope_output (VInt 7) (VBool true)
                                   empty_world)))))) /\
  (stdout (snd (write_gradescope_output (VInt 7) (VBool false) empty_world)) = [] /\
   fs_dirs (fs (snd (write_gradescope_output (VInt 7) (VBool false) empty_world))) = []).
Proof.
  split.
  - exact (proj1 (directory_created_when_missing (VInt 7) (VBool true) empty_world)
             eq_refl eq_refl).
  - exact (proj2 (directory_created_when_missing (VInt 7) (VBool false) empty_world)
             (or_introl eq_refl)).
Defined.

(** X18: when the results hold an object [json.dump] cannot write,
    [write_gradescope_output] raises [TypeError] after it has opened the
    file: the report that was there is gone and no document is in its
    place. *)
Theorem unserializable_report_is_lost (score is_prod : value) (w : world) :
  json_serializable score = false ->
  exists w',
    write_gradescope_output score is_prod w
    = (Raises (TypeError "Object is not JSON serializable"), w') /\
    read_file w' (report_path is_prod) = Some Partial.
Proof.
  intros Hs. rewrite write_gradescope_output_steps. cbv zeta.
  rewrite format_serializable_iff, Hs.
  eexists. split; [reflexivity |].
  rewrite read_set_file, String.eqb_refl. reflexivity.
Qed.

Lemma unserializable_report_is_lost_witness :
  exists w',
    write_gradescope_output (VList [opaque]) (VBool false)
      (snd (write_gradescope_output (VInt 7) (VBool false) empty_world))
    = (Raises (TypeError "Object is not JSON serializable"), w') /\
    read_file w' "./results.json" = Some Partial.
Proof.
  exact (unserializable_report_is_lost (VList [opaque]) (VBool false)
           (snd (write_gradescope_output (VInt 7) (VBool false) empty_world)) eq_refl).
Defined.

Lemma records_serializable {Sc} `{AbstractTestScaffold Sc}
    (interpreter : Sc) (timeout_per_test : Z) (zero_credit : value) (tests : list dict) :
  Forall (fun test => json_serializable (dict_get test "name" VNone) = true) tests ->
  json_serializable
    (VList (map (record_for interpreter timeout_per_test zero_credit) tests)) = true.
Proof.
  intros Hnames. simpl. apply forallb_forall. intros r Hin.
  apply in_map_iff in Hin. destruct Hin as (test & <- & Hin).
  rewrite Forall_forall in Hnames. specialize (Hnames test Hin).
  unfold record_for. cbn [json_serializable forallb snd].
  rewrite Hnames. reflexivity.
Qed.

(** X19: the results of [run_all_tests] can be handed to
    [write_gradescope_output] as they are: when the names of the test
    cases are JSON values, the write returns and the report holds the
    records under the key [tests], in the order of the test cases. *)
Theorem results_can_be_reported {Sc} `{AbstractTestScaffold Sc}
    (interpreter : Sc) (tests : list dict) (timeout_per_test : Z)
    (zero_credit is_prod : value) (w : world) :
  Forall (fun test => test_case_ok test = true) tests ->
  Forall (fun test => json_serializable (dict_get test "name" VNone) = true) tests ->
  exists results w1 w2,
    run_all_tests interpreter tests timeout_per_test zero_credit w
    = (Returns results, w1) /\
    write_gradescope_output (VList results) is_prod w1 = (Returns tt, w2) /\
    read_file w2 (report_path is_prod)
    = Some (JsonText (VDict [("tests", VList results)])) /\
    map (fun r => dict_get match r with VDict d => d | _ => [] end "name" VNone) results
    = map (fun test => dict_get test "name" VNone) tests.
Proof.
  intros Hok Hnames.
  rewrite (run_all_tests_runnable interpreter timeout_per_test zero_credit tests w
             (runnable_of_ok zero_credit tests Hok)).
  destruct (write_gradescope_output_writes
              (VList (map (record_for interpreter timeout_per_test zero_credit) tests))
              is_prod
              (snd (run_all_tests interpreter tests timeout_per_test zero_credit w))
              (records_serializable interpreter timeout_per_test zero_credit tests Hnames))
    as (w2 & Hwrite & Hread).
  rewrite (run_all_tests_runnable interpreter timeout_per_test zero_credit tests w
             (runnable_of_ok zero_credit tests Hok)) in Hwrite.
  do 3 eexists. split; [reflexivity |].
  split; [exact Hwrite |]. split; [exact Hread |].
  rewrite map_map. reflexivity.
Qed.

Lemma results_can_be_reported_witness :
  exists results w1 w2,
    run_all_tests returns_one [t1; t2] 5 (VBool false) empty_world
    = (Returns results, w1) /\
    write_gradescope_output (VList results) (VBool false) w1 = (Returns tt, w2) /\
    read_file w2 "./results.json"
    = Some (JsonText (VDict [("tests", VList results)])) /\
    map (fun r => dict_get match r with VDict d => d | _ => [] end "name" VNone) results
    = [VStr "t1"; VStr "t2"].
Proof.
  assert (Hok : Forall (fun test => test_case_ok test = true) [t1; t2]).
  { apply Forall_cons; [reflexivity |]. apply Forall_cons; [reflexivity |].
    apply Forall_nil. }
  assert (Hnames : Forall (fun test => json_serializable (dict_get test "name" VNone) = true)
                          [t1; t2]).
  { apply Forall_cons; [reflexivity |]. apply Forall_cons; [reflexivity |].
    apply Forall_nil. }
  exact (results_can_be_reported returns_one [t1; t2] 5 (VBool false) (VBool false)
           empty_world Hok Hnames).
Defined.

(** X20: for a test case with a source file, the wrapper prints the
    line that announces the test, without a line end, and then exactly
    one verdict; the score it returns is 1 when the verdict is PASSED and
    0 when it is FAILED or TIMED OUT. *)
Theorem console_verdict_matches_score {Sc} `{AbstractTestScaffold Sc}
    (interpreter : Sc) (test_case : dict) (timeout : Z) (w : world) (srcfile : value) :
  dict_find test_case "srcfile" = Some srcfile ->
  exists word score w',
    run_test_wrapper interpreter test_case timeout w = (Returns (VInt score), w') /\
    stdout w'
    = stdout w ++ [Printed [Lit "Running "; FVal srcfile; Lit "... "] EmptyString;
                   line [Lit word]] /\
    ((word = "PASSED" /\ score = 1) \/
     (word = "FAILED" /\ score = 0) \/
     (word = "TIMED OUT" /\ score = 0)).
Proof.
  intros Hsrc.
  rewrite (run_test_wrapper_cases interpreter test_case timeout w srcfile Hsrc).
  do 3 eexists. split; [reflexivity |]. split; [reflexivity |].
  destruct (verdict_of (supervised_outcome interpreter test_case timeout)); simpl.
  - right. right. split; reflexivity.
  - left. split; reflexivity.
  - right. left. split; reflexivity.
Qed.

Lemma console_verdict_matches_score_witness :
  exists word score w',
    run_test_wrapper returns_half t1 5 empty_world = (Returns (VInt score), w') /\
    stdout w'
    = [Printed [Lit "Running "; FVal (VStr "a.py"); Lit "... "] EmptyString;
       line [Lit word]] /\
    ((word = "PASSED" /\ score = 1) \/
     (word = "FAILED" /\ score = 0) \/
     (word = "TIMED OUT" /\ score = 0)).
Proof.
  exact (console_verdict_matches_score returns_half t1 5 empty_world (VStr "a.py")
           eq_refl).
Defined.
